(** * The agent orchestration core

    A shallow embedding of the retrieval-augmented-generation agent:
    the [AgentState] record threaded through the nodes, the retrieve and
    generate nodes, the query-rewrite node, the routing function
    [decide_node], the driver loop, and [ConversationalRAGChain] with its
    bounded chat history and its blocking and streaming queries.

    Conventions of the embedding.
    - A Python [str] is a [string] holding its UTF-8 bytes; [PyStr.len]
      counts code points the way Python's [len] does.
    - A Python [float] is an exact rational ([Q]); rounding is not modelled.
    - A dict key that is absent is [None]; the getters give the default
      that [state.get] is called with for such a key.
    - The vector store and the language model are external: they are
      functions of the trace of calls made so far, so that successive calls
      may answer differently, and every call is appended to the trace. *)

From Stdlib Require Import ZArith QArith List String Ascii Bool Lia.
From Stdlib Require Import Numbers.DecimalString.
From Stdlib Require Import Lqa.
Import ListNotations.

Local Open Scope string_scope.

(** ** Python strings *)

Module PyStr.

Definition nl : string := String (ascii_of_nat 10) "".

(** [bool(s)]: a string is truthy when it is not empty. *)
Definition truthy (s : string) : bool := negb (String.eqb s "").

(** [bool(state.get(key))] for a key holding a string or nothing. *)
Definition opt_truthy (o : option string) : bool :=
  match o with
  | Some s => truthy s
  | None => false
  end.

(** [sep.join(parts)] *)
Fixpoint join (sep : string) (parts : list string) : string :=
  match parts with
  | [] => ""
  | p :: rest =>
      match rest with
      | [] => p
      | _ :: _ => p ++ sep ++ join sep rest
      end
  end.

(** ["".join(parts)] *)
Definition concat_all (parts : list string) : string := join "" parts.

(** [str(n)] for a natural number. *)
Definition str_of_nat (n : nat) : string :=
  NilEmpty.string_of_uint (Nat.to_uint n).

(** A UTF-8 continuation byte, [10xxxxxx]. *)
Definition is_continuation (c : ascii) : bool :=
  let n := nat_of_ascii c in (128 <=? n)%nat && (n <? 192)%nat.

(** [len(s)]: the number of code points. *)
Fixpoint len (s : string) : nat :=
  match s with
  | EmptyString => 0
  | String c rest => if is_continuation c then len rest else S (len rest)
  end.

(** The ASCII white space characters removed by [str.strip]. *)
Definition is_space (c : ascii) : bool :=
  let n := nat_of_ascii c in ((9 <=? n)%nat && (n <=? 13)%nat) || (n =? 32)%nat.

(** [s.strip() == ""]: empty or white space only. *)
Fixpoint blank (s : string) : bool :=
  match s with
  | EmptyString => true
  | String c rest => is_space c && blank rest
  end.

(** [sub in s]: [sub] occurs in [s].  On UTF-8 bytes an occurrence of the
    encoding of a character starts at a character of [s]. *)
Fixpoint contains (sub s : string) : bool :=
  String.prefix sub s
  || match s with
     | EmptyString => false
     | String _ rest => contains sub rest
     end.

End PyStr.

(** ** Python floats and integers *)

Module PyNum.

(** [x < y] on floats. *)
Definition ltb (x y : Q) : bool := negb (Qle_bool y x).

(** [x >= y] on floats. *)
Definition geb (x y : Q) : bool := Qle_bool y x.

(** [min(a, b)]: the second argument only when it is strictly smaller. *)
Definition min (a b : Q) : Q := if ltb b a then b else a.

(** [sum(xs)] *)
Definition sum (xs : list Q) : Q := fold_left Qplus xs 0%Q.

(** [float(n)] of a length. *)
Definition of_len (n : nat) : Q := inject_Z (Z.of_nat n).

End PyNum.

(** ** Exceptions and external collaborators *)

(** An exception is known by [str(e)]. *)
Definition exn : Type := string.

Inductive Res (A : Type) : Type :=
| Ok (a : A)
| Raise (e : exn).
Arguments Ok {A} a.
Arguments Raise {A} e.

Record Metadata : Type := mkMetadata {
  score : option Q;
  source : option string
}.

Record Document : Type := mkDocument {
  page_content : string;
  metadata : Metadata
}.

(** One call to a collaborator. *)
Inductive event : Type :=
| SimilaritySearch (query : string) (k : Z)
| LlmGenerate (prompt : string)
| LlmStreamGenerate (prompt : string).

Definition trace : Type := list event.

Definition is_llm_call (ev : event) : bool :=
  match ev with
  | SimilaritySearch _ _ => false
  | LlmGenerate _ => true
  | LlmStreamGenerate _ => true
  end.

Definition is_search_call (ev : event) : bool :=
  match ev with
  | SimilaritySearch _ _ => true
  | _ => false
  end.

(** The number of language-model calls recorded in a trace. *)
Definition llm_calls (t : trace) : nat := List.length (filter is_llm_call t).

(** The number of store searches recorded in a trace. *)
Definition search_calls (t : trace) : nat := List.length (filter is_search_call t).

(** The vector store and the language model.  [stream_generate] gives the
    increments the iterator yields and, when it fails, the exception raised
    after them.  [set_order xs] is the order in which Python enumerates
    [set(xs)]. *)
Record collaborators : Type := mkCollaborators {
  similarity_search : trace -> string -> Z -> Res (list Document);
  generate : trace -> string -> Res string;
  stream_generate : trace -> string -> list string * option exn;
  set_order : list string -> list string
}.

(** A prompt template: [template.format(context=..., question=...)]. *)
Definition prompt_template : Type := string -> string -> Res string.

(** ** AgentState *)

Record AgentState : Type := mkAgentState {
  question : string;
  retrieval_query : option string;
  retrieved_docs : option (list Document);
  retrieval_score : option Q;
  need_more_context : option bool;
  answer : option string;
  confidence_score : option Q;
  current_node : option string;
  step_count : option Z;
  max_steps : option Z;
  error : option string
}.

Definition set_retrieval_query (v : option string) (s : AgentState) : AgentState :=
  mkAgentState (question s) v (retrieved_docs s) (retrieval_score s)
    (need_more_context s) (answer s) (confidence_score s) (current_node s)
    (step_count s) (max_steps s) (error s).

Definition set_retrieved_docs (v : option (list Document)) (s : AgentState) : AgentState :=
  mkAgentState (question s) (retrieval_query s) v (retrieval_score s)
    (need_more_context s) (answer s) (confidence_score s) (current_node s)
    (step_count s) (max_steps s) (error s).

Definition set_retrieval_score (v : option Q) (s : AgentState) : AgentState :=
  mkAgentState (question s) (retrieval_query s) (retrieved_docs s) v
    (need_more_context s) (answer s) (confidence_score s) (current_node s)
    (step_count s) (max_steps s) (error s).

Definition set_need_more_context (v : option bool) (s : AgentState) : AgentState :=
  mkAgentState (question s) (retrieval_query s) (retrieved_docs s) (retrieval_score s)
    v (answer s) (confidence_score s) (current_node s)
    (step_count s) (max_steps s) (error s).

Definition set_answer (v : option string) (s : AgentState) : AgentState :=
  mkAgentState (question s) (retrieval_query s) (retrieved_docs s) (retrieval_score s)
    (need_more_context s) v (confidence_score s) (current_node s)
    (step_count s) (max_steps s) (error s).

Definition set_confidence_score (v : option Q) (s : AgentState) : AgentState :=
  mkAgentState (question s) (retrieval_query s) (retrieved_docs s) (retrieval_score s)
    (need_more_context s) (answer s) v (current_node s)
    (step_count s) (max_steps s) (error s).

Definition set_current_node (v : option string) (s : AgentState) : AgentState :=
  mkAgentState (question s) (retrieval_query s) (retrieved_docs s) (retrieval_score s)
    (need_more_context s) (answer s) (confidence_score s) v
    (step_count s) (max_steps s) (error s).

Definition set_step_count (v : option Z) (s : AgentState) : AgentState :=
  mkAgentState (question s) (retrieval_query s) (retrieved_docs s) (retrieval_score s)
    (need_more_context s) (answer s) (confidence_score s) (current_node s)
    v (max_steps s) (error s).

Definition set_error (v : option string) (s : AgentState) : AgentState :=
  mkAgentState (question s) (retrieval_query s) (retrieved_docs s) (retrieval_score s)
    (need_more_context s) (answer s) (confidence_score s) (current_node s)
    (step_count s) (max_steps s) v.

(** [state.get("step_count", 0)] *)
Definition get_step_count (s : AgentState) : Z :=
  match step_count s with
  | Some n => n
  | None => 0%Z
  end.

(** [state.get("max_steps", 5)] *)
Definition get_max_steps (s : AgentState) : Z :=
  match max_steps s with
  | Some n => n
  | None => 5%Z
  end.

(** [state.get("retrieval_score", dflt)] *)
Definition get_retrieval_score (dflt : Q) (s : AgentState) : Q :=
  match retrieval_score s with
  | Some x => x
  | None => dflt
  end.

(** [state.get("need_more_context", False)] *)
Definition get_need_more_context (s : AgentState) : bool :=
  match need_more_context s with
  | Some b => b
  | None => false
  end.

Arguments get_step_count !s /.
Arguments get_max_steps !s /.
Arguments get_retrieval_score dflt !s /.
Arguments get_need_more_context !s /.

(** [create_initial_state(question, max_steps)]: every optional key absent. *)
Definition create_initial_state (q : string) (budget : Z) : AgentState :=
  mkAgentState q None None None None None None None (Some 0%Z) (Some budget) None.

(** ** The retrieve node *)

Section RetrieveNode.

Variable vectorstore : collaborators.
Variable k : Z.
Variable score_threshold : option Q.

(** [state.get("retrieval_query") or state["question"]] *)
Definition effective_query (state : AgentState) : string :=
  match retrieval_query state with
  | Some q => if PyStr.truthy q then q else question state
  | None => question state
  end.

(** [doc.metadata.get("score", dflt)] *)
Definition score_or (dflt : Q) (doc : Document) : Q :=
  match score (metadata doc) with
  | Some x => x
  | None => dflt
  end.

(** Step 3: drop the documents under the threshold, when one is set. *)
Definition filter_by_threshold (docs : list Document) : list Document :=
  match score_threshold with
  | Some th => filter (fun doc => PyNum.geb (score_or 1.0%Q doc) th) docs
  | None => docs
  end.

(** Step 4: the retrieval quality score.  The first document decides which
    of the two methods is used; [len(docs) / k] raises when [k] is zero. *)
Definition compute_retrieval_score (docs : list Document) : Res Q :=
  match docs with
  | [] => Ok 0.0%Q
  | first :: _ =>
      match score (metadata first) with
      | Some _ =>
          let scores := map (score_or 0%Q) docs in
          Ok (PyNum.sum scores / PyNum.of_len (List.length scores))%Q
      | None =>
          if (k =? 0)%Z then Raise "division by zero"
          else Ok (PyNum.min (PyNum.of_len (List.length docs) / inject_Z k)%Q 1.0%Q)
      end
  end.

(** Step 6: [retrieval_score < 0.6 or len(docs) < k // 2] *)
Definition compute_need_more_context (retrieval_score : Q) (docs : list Document) : bool :=
  PyNum.ltb retrieval_score 0.6%Q || (Z.of_nat (List.length docs) <? k / 2)%Z.

(** The [except] branch of the node. *)
Definition retrieve_failed (e : exn) (state : AgentState) : AgentState :=
  set_need_more_context (Some true)
    (set_retrieval_score (Some 0.0%Q)
      (set_retrieved_docs (Some [])
        (set_error (Some ("检索失败: " ++ e)) state))).

Definition retrieve_node (t : trace) (state : AgentState) : AgentState * trace :=
  let query := effective_query state in
  let t' := (t ++ [SimilaritySearch query k])%list in
  match similarity_search vectorstore t query k with
  | Raise e => (retrieve_failed e state, t')
  | Ok found =>
      let docs := filter_by_threshold found in
      match compute_retrieval_score docs with
      | Raise e => (retrieve_failed e state, t')
      | Ok retrieval_score =>
          let state1 := set_retrieved_docs (Some docs) state in
          let state2 := set_retrieval_score (Some retrieval_score) state1 in
          let state3 := set_current_node (Some "retrieve") state2 in
          let state4 := set_step_count (Some (get_step_count state + 1)%Z) state3 in
          (set_need_more_context
             (Some (compute_need_more_context retrieval_score docs)) state4, t')
      end
  end.

End RetrieveNode.

(** ** The generate node *)

Definition no_docs_answer : string :=
  "抱歉，我在知识库中没有找到相关信息来回答您的问题。".

Definition generate_failed_answer : string := "抱歉，生成答案时出现错误。".

(** The built-in prompt of [create_generate_node]. *)
Definition default_template : prompt_template :=
  fun context question =>
    Ok ("你是一位专业的智能助手。请基于以下上下文信息回答用户问题。"
        ++ PyStr.nl ++ PyStr.nl ++ "上下文信息：" ++ PyStr.nl ++ context
        ++ PyStr.nl ++ PyStr.nl ++ "用户问题：" ++ PyStr.nl ++ question
        ++ PyStr.nl ++ PyStr.nl ++ "要求："
        ++ PyStr.nl ++ "1. 仅基于上下文信息回答，确保准确性"
        ++ PyStr.nl ++ "2. 如果上下文中没有相关信息，请明确说明"
        ++ PyStr.nl ++ "3. 回答要完整、清晰、结构化"
        ++ PyStr.nl ++ PyStr.nl ++ "答案：").

(** [enumerate(xs, start)] *)
Fixpoint enumerate {A : Type} (start : nat) (xs : list A) : list (nat * A) :=
  match xs with
  | [] => []
  | x :: rest => (start, x) :: enumerate (S start) rest
  end.

Section GenerateNode.

Variable llm : collaborators.
Variable template : prompt_template.
Variable include_sources : bool.

(** Step 3, the numbered form: ["[文档 {i+1}]\n{doc.page_content}"] joined by
    a blank line, [i] counting from zero. *)
Definition assemble_context (docs : list Document) : string :=
  PyStr.join (PyStr.nl ++ PyStr.nl)
    (map (fun p => "[文档 " ++ PyStr.str_of_nat (fst p + 1) ++ "]" ++ PyStr.nl
                   ++ page_content (snd p))
         (enumerate 0 docs)).

(** [doc.metadata.get("source", "未知来源")] *)
Definition source_or_unknown (doc : Document) : string :=
  match source (metadata doc) with
  | Some s => s
  | None => "未知来源"
  end.

(** Step 6: the sources appended to the answer. *)
Definition sources_suffix (docs : list Document) : string :=
  let sources := set_order llm (map source_or_unknown docs) in
  PyStr.nl ++ PyStr.nl ++ "参考来源：" ++ PyStr.nl
    ++ PyStr.join PyStr.nl (map (fun s => "- " ++ s) sources).

(** Step 7: [retrieval_score * 0.6 + min(len(answer) / 100, 1.0) * 0.4],
    with [state.get("retrieval_score", 0.5)]. *)
Definition compute_confidence (state : AgentState) (answer : string) : Q :=
  let retrieval_score := get_retrieval_score 0.5%Q state in
  let answer_length_score :=
    PyNum.min (PyNum.of_len (PyStr.len answer) / 100)%Q 1.0%Q in
  (retrieval_score * 0.6 + answer_length_score * 0.4)%Q.

(** The [except] branch of the node. *)
Definition generate_failed (e : exn) (state : AgentState) : AgentState :=
  set_confidence_score (Some 0.0%Q)
    (set_answer (Some generate_failed_answer)
      (set_error (Some ("生成失败: " ++ e)) state)).

(** The short cut taken when there is nothing to generate from. *)
Definition generate_no_docs (state : AgentState) : AgentState :=
  set_step_count (Some (get_step_count state + 1)%Z)
    (set_current_node (Some "generate")
      (set_confidence_score (Some 0.0%Q)
        (set_answer (Some no_docs_answer) state))).

Definition generate_node (t : trace) (state : AgentState) : AgentState * trace :=
  let question := question state in
  let docs :=
    match retrieved_docs state with
    | Some ds => ds
    | None => []
    end in
  match docs with
  | [] => (generate_no_docs state, t)
  | _ :: _ =>
      let context := assemble_context docs in
      match template context question with
      | Raise e => (generate_failed e state, t)
      | Ok prompt =>
          let t' := (t ++ [LlmGenerate prompt])%list in
          match generate llm t prompt with
          | Raise e => (generate_failed e state, t')
          | Ok generated =>
              let answer :=
                if include_sources then generated ++ sources_suffix docs
                else generated in
              let confidence_score := compute_confidence state answer in
              let state1 := set_answer (Some answer) state in
              let state2 := set_confidence_score (Some confidence_score) state1 in
              let state3 := set_current_node (Some "generate") state2 in
              (set_step_count (Some (get_step_count state + 1)%Z) state3, t')
          end
      end
  end.

End GenerateNode.

(** ** The decide node *)

(** The node names [decide_node] returns: ["retrieve"], ["rewrite_query"],
    ["generate"] and ["end"]. *)
Inductive decision : Type :=
| Retrieve
| RewriteQuery
| Generate
| End_.

(** [bool(state.get("retrieved_docs"))]: a list that is not empty. *)
Definition docs_truthy (state : AgentState) : bool :=
  match retrieved_docs state with
  | Some (_ :: _) => true
  | _ => false
  end.

Definition decide_node (state : AgentState) : decision :=
  if (get_step_count state >=? get_max_steps state)%Z then End_
  else if PyStr.opt_truthy (answer state) then End_
  else if PyStr.opt_truthy (error state) then End_
  else
    match retrieved_docs state with
    | None => Retrieve
    | Some _ =>
        let retrieval_score := get_retrieval_score 0%Q state in
        let need_more_context := get_need_more_context state in
        if need_more_context && PyNum.ltb retrieval_score 0.5%Q then RewriteQuery
        else if docs_truthy state && negb (PyStr.opt_truthy (answer state)) then Generate
        else End_
    end.

(** ** The query-rewrite node *)

(** The query-rewrite node.  A question that mentions one of the two
    pronouns gets [processed_question], the result of the pronoun
    substitution, which the sources leave out and which is a parameter here;
    any other question is searched as it is.  The node writes
    [retrieval_query] and nothing else: it calls no collaborator and leaves
    [step_count] and [current_node] as they were. *)
Definition rewrite_query_node (processed_question : AgentState -> string)
    (t : trace) (state : AgentState) : AgentState * trace :=
  let question := question state in
  if PyStr.contains "它" question || PyStr.contains "他" question
  then (set_retrieval_query (Some (processed_question state)) state, t)
  else (set_retrieval_query (Some question) state, t).

(** ** The driver loop *)

Section Orchestrator.

Variable env : collaborators.
Variable k : Z.
Variable score_threshold : option Q.
Variable template : prompt_template.
Variable include_sources : bool.

(** Whether the rewrite node is wired into the graph, and with which pronoun
    substitution. *)
Variable rewriter : option (AgentState -> string).

(** Modelled from the spec: the dispatch of the orchestrator, which runs the
    step the routing decision names; a rewrite falls back to generation when
    the rewrite node is not available. *)
Definition dispatch (d : decision) (t : trace) (state : AgentState)
  : AgentState * trace :=
  match d with
  | Retrieve => retrieve_node env k score_threshold t state
  | Generate => generate_node env template include_sources t state
  | RewriteQuery =>
      match rewriter with
      | Some f => rewrite_query_node f t state
      | None => generate_node env template include_sources t state
      end
  | End_ => (state, t)
  end.

(** Modelled from the spec: the loop of the orchestrator, which is left to
    the graph library in the sources.  It asks [decide_node] before every
    step, returns on ["end"], and otherwise replaces the state by the result
    of the step.  [executed] counts the steps run; [None] means the fuel ran
    out before the loop returned. *)
Fixpoint run_loop (fuel : nat) (t : trace) (state : AgentState) (executed : nat)
  : option (AgentState * trace * nat) :=
  match decide_node state with
  | End_ => Some (state, t, executed)
  | d =>
      match fuel with
      | O => None
      | S fuel' =>
          let r := dispatch d t state in
          run_loop fuel' (snd r) (fst r) (S executed)
      end
  end.

(** Modelled from the spec: [run(question, step_budget)] starts the loop on
    a fresh state. *)
Definition run (fuel : nat) (q : string) (step_budget : Z)
  : option (AgentState * trace * nat) :=
  run_loop fuel [] (create_initial_state q step_budget) 0.

End Orchestrator.

(** ** ConversationalRAGChain *)

Definition chain_no_docs_answer : string :=
  "抱歉，我在知识库中没有找到相关信息。".

Definition first_round_placeholder : string := "（这是第一轮对话）".

(** A template with the three slots [history], [context] and [question]. *)
Definition conversational_template : Type := string -> string -> string -> Res string.

Definition default_conversational_template : conversational_template :=
  fun history context question =>
    Ok ("你是一个智能助手。基于以下对话历史和上下文信息回答用户的问题。"
        ++ PyStr.nl ++ PyStr.nl ++ "    对话历史：" ++ PyStr.nl ++ "    " ++ history
        ++ PyStr.nl ++ PyStr.nl ++ "    上下文信息：" ++ PyStr.nl ++ "    " ++ context
        ++ PyStr.nl ++ PyStr.nl ++ "    当前问题：" ++ PyStr.nl ++ "    " ++ question
        ++ PyStr.nl ++ PyStr.nl
        ++ "    请基于对话历史和上下文信息回答。如果问题与之前的对话相关，请考虑历史信息。"
        ++ PyStr.nl ++ PyStr.nl ++ "    你的回答：").

(** The mutable part of the chain object. *)
Record ConversationalRAGChain : Type := mkChain {
  chat_history : list (string * string);
  max_history : Z
}.

(** [ConversationalRAGChain(llm, vectorstore, prompt_template, max_history)] *)
Definition new_chain (max_history : Z) : ConversationalRAGChain :=
  mkChain [] max_history.

(** [append], then one [pop(0)] when the list has grown past [max_history]. *)
Definition _add_to_history (self : ConversationalRAGChain) (q a : string)
  : ConversationalRAGChain :=
  let appended := (chat_history self ++ [(q, a)])%list in
  if (Z.of_nat (List.length appended) >? max_history self)%Z
  then mkChain (tl appended) (max_history self)
  else mkChain appended (max_history self).

Definition clear_history (self : ConversationalRAGChain) : ConversationalRAGChain :=
  mkChain [] (max_history self).

Definition _format_history (self : ConversationalRAGChain) : string :=
  match chat_history self with
  | [] => first_round_placeholder
  | _ :: _ =>
      PyStr.join PyStr.nl
        (flat_map (fun qa => ["用户: " ++ fst qa; "助手: " ++ snd qa])
                  (chat_history self))
  end.

(** ["[文档{i}]\n{doc.page_content}"] joined by a blank line, [i] from one. *)
Definition chain_context (docs : list Document) : string :=
  PyStr.join (PyStr.nl ++ PyStr.nl)
    (map (fun p => "[文档" ++ PyStr.str_of_nat (fst p) ++ "]" ++ PyStr.nl
                   ++ page_content (snd p))
         (enumerate 1 docs)).

(** What resuming a generator gives. *)
Inductive resumed : Type :=
| Yielded (chunk : string)
| StopIteration
| Raised (e : exn).

(** Where the generator of [stream_query] is suspended. *)
Inductive stream_pc : Type :=
| NotStarted
| AtFallbackYield
| AtChunkYield (answer_parts pending : list string) (failure : option exn)
| Finished.

Section Chain.

Variable env : collaborators.
Variable template : conversational_template.

Definition query_error (e : exn) : exn := "对话 RAG 查询失败: " ++ e.

Definition stream_query_error (e : exn) : exn := "流式对话 RAG 查询失败: " ++ e.

Definition query (t : trace) (self : ConversationalRAGChain) (q : string) (k : Z)
  : Res string * ConversationalRAGChain * trace :=
  let t1 := (t ++ [SimilaritySearch q k])%list in
  match similarity_search env t q k with
  | Raise e => (Raise (query_error e), self, t1)
  | Ok [] => (Ok chain_no_docs_answer, _add_to_history self q chain_no_docs_answer, t1)
  | Ok ((_ :: _) as docs) =>
      let context := chain_context docs in
      let history := _format_history self in
      match template history context q with
      | Raise e => (Raise (query_error e), self, t1)
      | Ok prompt =>
          let t2 := (t1 ++ [LlmGenerate prompt])%list in
          match generate env t1 prompt with
          | Raise e => (Raise (query_error e), self, t2)
          | Ok answer => (Ok answer, _add_to_history self q answer, t2)
          end
      end
  end.

(** The [for chunk in self.llm.stream_generate(prompt)] loop, resumed: the
    next increment is collected and yielded; when the iterator is exhausted
    the parts are joined and saved; when it fails the exception is wrapped. *)
Definition resume_loop (q : string) (answer_parts pending : list string)
    (failure : option exn) (self : ConversationalRAGChain) (t : trace)
  : resumed * stream_pc * ConversationalRAGChain * trace :=
  match pending with
  | chunk :: rest =>
      (Yielded chunk, AtChunkYield (answer_parts ++ [chunk])%list rest failure, self, t)
  | [] =>
      match failure with
      | Some e => (Raised (stream_query_error e), Finished, self, t)
      | None =>
          (StopIteration, Finished,
           _add_to_history self q (PyStr.concat_all answer_parts), t)
      end
  end.

(** One [next()] on the generator [stream_query(q, k)]. *)
Definition stream_query_next (q : string) (k : Z) (pc : stream_pc)
    (self : ConversationalRAGChain) (t : trace)
  : resumed * stream_pc * ConversationalRAGChain * trace :=
  match pc with
  | NotStarted =>
      let t1 := (t ++ [SimilaritySearch q k])%list in
      match similarity_search env t q k with
      | Raise e => (Raised (stream_query_error e), Finished, self, t1)
      | Ok [] =>
          (Yielded chain_no_docs_answer, AtFallbackYield,
           _add_to_history self q chain_no_docs_answer, t1)
      | Ok ((_ :: _) as docs) =>
          let context := chain_context docs in
          let history := _format_history self in
          match template history context q with
          | Raise e => (Raised (stream_query_error e), Finished, self, t1)
          | Ok prompt =>
              let t2 := (t1 ++ [LlmStreamGenerate prompt])%list in
              let stream := stream_generate env t1 prompt in
              resume_loop q [] (fst stream) (snd stream) self t2
          end
      end
  | AtFallbackYield => (StopIteration, Finished, self, t)
  | AtChunkYield answer_parts pending failure =>
      resume_loop q answer_parts pending failure self t
  | Finished => (StopIteration, Finished, self, t)
  end.

(** A consumer that calls [next()] [n] times and keeps what it was given. *)
Fixpoint stream_query_take (n : nat) (q : string) (k : Z) (pc : stream_pc)
    (self : ConversationalRAGChain) (t : trace)
  : list resumed * stream_pc * ConversationalRAGChain * trace :=
  match n with
  | O => ([], pc, self, t)
  | S n' =>
      let '(r, pc1, self1, t1) := stream_query_next q k pc self t in
      let '(rs, pc2, self2, t2) := stream_query_take n' q k pc1 self1 t1 in
      (r :: rs, pc2, self2, t2)
  end.

(** [for chunk in chain.stream_query(q, k)]: the increments received, how
    the loop ended, and the chain afterwards; [None] when the fuel ran out
    before the generator stopped. *)
Fixpoint stream_query_drain (fuel : nat) (q : string) (k : Z) (pc : stream_pc)
    (self : ConversationalRAGChain) (t : trace) (received : list string)
  : option (list string * option exn * ConversationalRAGChain * trace) :=
  match fuel with
  | O => None
  | S fuel' =>
      match stream_query_next q k pc self t with
      | (Yielded chunk, pc1, self1, t1) =>
          stream_query_drain fuel' q k pc1 self1 t1 (received ++ [chunk])%list
      | (StopIteration, _, self1, t1) => Some (received, None, self1, t1)
      | (Raised e, _, self1, t1) => Some (received, Some e, self1, t1)
      end
  end.

End Chain.

(** ** Vocabulary of the statements *)

(** The chain after a sequence of completed turns. *)
Definition add_turns (self : ConversationalRAGChain) (turns : list (string * string))
  : ConversationalRAGChain :=
  fold_left (fun c qa => _add_to_history c (fst qa) (snd qa)) turns self.

(** The last [n] elements of a list, in order. *)
Definition lastn {A : Type} (n : nat) (l : list A) : list A :=
  skipn (List.length l - n) l.

(** A document without metadata, and one with a relevance score. *)
Definition plain_doc (text : string) : Document :=
  mkDocument text (mkMetadata None None).

Definition scored_doc (text : string) (x : Q) : Document :=
  mkDocument text (mkMetadata (Some x) None).

(** Collaborators that answer every call the same way. *)
Definition stub (found : Res (list Document)) (generated : Res string)
    (streamed : list string * option exn) : collaborators :=
  mkCollaborators (fun _ _ _ => found) (fun _ _ => generated)
                  (fun _ _ => streamed) (fun xs => xs).

(** How a turn can end.  The four cases exclude one another. *)
Inductive turn_outcome (budget : Z) (state : AgentState) : Prop :=
| Answered :
    PyStr.opt_truthy (answer state) = true ->
    PyStr.opt_truthy (error state) = false ->
    turn_outcome budget state
| RetrievalFailed (e : exn) :
    error state = Some ("检索失败: " ++ e) ->
    PyStr.opt_truthy (answer state) = false ->
    turn_outcome budget state
| GenerationFailed (e : exn) :
    error state = Some ("生成失败: " ++ e) ->
    answer state = Some generate_failed_answer ->
    turn_outcome budget state
| BudgetExhausted :
    PyStr.opt_truthy (answer state) = false ->
    PyStr.opt_truthy (error state) = false ->
    get_step_count state = budget ->
    turn_outcome budget state.

(** The same four outcomes as predicates on the final state. *)
Definition answered (state : AgentState) : Prop :=
  PyStr.opt_truthy (answer state) = true /\ PyStr.opt_truthy (error state) = false.

Definition retrieval_failed (state : AgentState) : Prop :=
  (exists e, error state = Some ("检索失败: " ++ e))
  /\ PyStr.opt_truthy (answer state) = false.

Definition generation_failed (state : AgentState) : Prop :=
  (exists e, error state = Some ("生成失败: " ++ e))
  /\ answer state = Some generate_failed_answer.

Definition budget_exhausted (budget : Z) (state : AgentState) : Prop :=
  PyStr.opt_truthy (answer state) = false
  /\ PyStr.opt_truthy (error state) = false
  /\ get_step_count state = budget.

Definition exactly_one_of (A B C D : Prop) : Prop :=
  (A /\ ~ B /\ ~ C /\ ~ D) \/ (~ A /\ B /\ ~ C /\ ~ D)
  \/ (~ A /\ ~ B /\ C /\ ~ D) \/ (~ A /\ ~ B /\ ~ C /\ D).

(** The states between the steps of a turn that is still running: nothing
    answered, nothing failed, the counter within the budget, and an empty
    retrieval marked as needing a rewrite. *)
Definition running (budget : Z) (state : AgentState) : Prop :=
  max_steps state = Some budget
  /\ (0 <= get_step_count state <= budget)%Z
  /\ PyStr.opt_truthy (answer state) = false
  /\ PyStr.opt_truthy (error state) = false
  /\ (retrieved_docs state = Some [] ->
      get_need_more_context state = true
      /\ PyNum.ltb (get_retrieval_score 0%Q state) 0.5%Q = true).

(** What a step that counts itself makes of a running state: it is still
    running, one step further, or the turn has ended. *)
Definition step_result (budget : Z) (state state' : AgentState) : Prop :=
  (running budget state'
   /\ get_step_count state' = (get_step_count state + 1)%Z)
  \/ (decide_node state' = End_ /\ turn_outcome budget state').

(** ** RAGChain, the chain without history *)

Module RAGChain.

(** The answer of [query] when nothing is found; [stream_query] yields
    [chain_no_docs_answer] instead, which has one word more. *)
Definition no_docs_answer : string := "抱歉，在知识库中没有找到相关信息。".

Definition query_error (e : exn) : exn := "RAG查询失败：" ++ e.

Definition stream_query_error (e : exn) : exn := "流式RAG查询失败：" ++ e.

Section Chain.

Variable env : collaborators.
Variable template : prompt_template.

Definition query (t : trace) (q : string) (k : Z) : Res string * trace :=
  let t1 := (t ++ [SimilaritySearch q k])%list in
  match similarity_search env t q k with
  | Raise e => (Raise (query_error e), t1)
  | Ok [] => (Ok no_docs_answer, t1)
  | Ok ((_ :: _) as relevant_docs) =>
      let context := chain_context relevant_docs in
      match template context q with
      | Raise e => (Raise (query_error e), t1)
      | Ok prompt =>
          let t2 := (t1 ++ [LlmGenerate prompt])%list in
          match generate env t1 prompt with
          | Raise e => (Raise (query_error e), t2)
          | Ok answer => (Ok answer, t2)
          end
      end
  end.

(** The [for chunk in self.llm.stream_generate(prompt): yield chunk] loop,
    resumed. *)
Definition resume_loop (pending : list string) (failure : option exn) (t : trace)
  : resumed * stream_pc * trace :=
  match pending with
  | chunk :: rest => (Yielded chunk, AtChunkYield [] rest failure, t)
  | [] =>
      match failure with
      | Some e => (Raised (stream_query_error e), Finished, t)
      | None => (StopIteration, Finished, t)
      end
  end.

(** One [next()] on the generator [stream_query(q, k)]. *)
Definition stream_query_next (q : string) (k : Z) (pc : stream_pc) (t : trace)
  : resumed * stream_pc * trace :=
  match pc with
  | NotStarted =>
      let t1 := (t ++ [SimilaritySearch q k])%list in
      match similarity_search env t q k with
      | Raise e => (Raised (stream_query_error e), Finished, t1)
      | Ok [] => (Yielded chain_no_docs_answer, AtFallbackYield, t1)
      | Ok ((_ :: _) as relevant_docs) =>
          let context := chain_context relevant_docs in
          match template context q with
          | Raise e => (Raised (stream_query_error e), Finished, t1)
          | Ok prompt =>
              let t2 := (t1 ++ [LlmStreamGenerate prompt])%list in
              let stream := stream_generate env t1 prompt in
              resume_loop (fst stream) (snd stream) t2
          end
      end
  | AtFallbackYield => (StopIteration, Finished, t)
  | AtChunkYield _ pending failure => resume_loop pending failure t
  | Finished => (StopIteration, Finished, t)
  end.

(** [for chunk in chain.stream_query(q, k)]: the increments received and how
    the loop ended; [None] when the fuel ran out first. *)
Fixpoint stream_query_drain (fuel : nat) (q : string) (k : Z) (pc : stream_pc)
    (t : trace) (received : list string)
  : option (list string * option exn * trace) :=
  match fuel with
  | O => None
  | S fuel' =>
      match stream_query_next q k pc t with
      | (Yielded chunk, pc1, t1) =>
          stream_query_drain fuel' q k pc1 t1 (received ++ [chunk])%list
      | (StopIteration, _, t1) => Some (received, None, t1)
      | (Raised e, _, t1) => Some (received, Some e, t1)
      end
  end.

End Chain.

End RAGChain.

(** ** Node decorators *)

(** [str(n)] for an integer. *)
Definition str_of_Z (n : Z) : string :=
  match n with
  | Z0 => "0"
  | Zpos p => PyStr.str_of_nat (Pos.to_nat p)
  | Zneg p => "-" ++ PyStr.str_of_nat (Pos.to_nat p)
  end.

(** A node as a decorator sees it.  Called on the state object it changes
    the object and returns it, or raises after the changes made so far; what
    it does may depend on how many calls were made before this one. *)
Definition raising_node : Type := nat -> AgentState -> AgentState * option exn.

(** [with_error_handling(node_func)], [name] being [node_func.__name__]. *)
Definition with_error_handling (name : string) (node_func : raising_node)
  : raising_node :=
  fun calls state =>
    match node_func calls state with
    | (state', None) => (state', None)
    | (state', Some e) => (set_error (Some (name ++ " 失败: " ++ e)) state', None)
    end.

(** The [for attempt in range(max_retries)] loop of [with_retry], with
    [remaining] turns to go.  The result is what the wrapper returns ([None]
    when the loop ends without a [return]), the state object afterwards and
    the number of calls made.  The pause between attempts is not modelled. *)
Fixpoint retry_loop (node_func : raising_node) (max_retries : Z)
    (remaining : nat) (attempt : Z) (calls : nat) (state : AgentState)
  : option AgentState * AgentState * nat :=
  match remaining with
  | O => (None, state, calls)
  | S remaining' =>
      match node_func calls state with
      | (state', None) => (Some state', state', S calls)
      | (state', Some e) =>
          if (attempt =? max_retries - 1)%Z then
            let failed :=
              set_error
                (Some ("重试" ++ str_of_Z max_retries ++ "次后失败: " ++ e)) state' in
            (Some failed, failed, S calls)
          else retry_loop node_func max_retries remaining' (attempt + 1)%Z
                 (S calls) state'
      end
  end.

(** [with_retry(max_retries, delay)(node_func)] *)
Definition with_retry (max_retries : Z) (node_func : raising_node)
    (calls : nat) (state : AgentState) : option AgentState * AgentState * nat :=
  retry_loop node_func max_retries (Z.to_nat max_retries) 0%Z calls state.

(** The state object after [n] calls of the node that all raised, the first
    of them being call number [calls]: each call works on what the call
    before left. *)
Fixpoint after_failures (node_func : raising_node) (n : nat) (calls : nat)
    (state : AgentState) : AgentState :=
  match n with
  | O => state
  | S n' => after_failures node_func n' (S calls) (fst (node_func calls state))
  end.

(** The loop of the node made by [create_retrieve_with_retry].  [search n q]
    is what [vectorstore.search(q)] does when [n] searches were made before;
    the result is the state and the number of searches made.  The pause
    between attempts is not modelled. *)
Fixpoint retrieve_retry_loop (search : nat -> string -> Res (list Document))
    (max_retries : Z) (remaining : nat) (attempt : Z) (searches : nat)
    (state : AgentState) : AgentState * nat :=
  match remaining with
  | O => (state, searches)
  | S remaining' =>
      match search searches (question state) with
      | Ok docs =>
          (set_error None (set_retrieved_docs (Some docs) state), S searches)
      | Raise e =>
          if (attempt =? max_retries - 1)%Z then
            (set_retrieved_docs (Some [])
               (set_error
                  (Some ("重试" ++ str_of_Z max_retries ++ "次后仍失败: " ++ e))
                  state),
             S searches)
          else retrieve_retry_loop search max_retries remaining' (attempt + 1)%Z
                 (S searches) state
      end
  end.

(** [create_retrieve_with_retry(vectorstore, max_retries)] *)
Definition create_retrieve_with_retry (search : nat -> string -> Res (list Document))
    (max_retries : Z) (searches : nat) (state : AgentState) : AgentState * nat :=
  retrieve_retry_loop search max_retries (Z.to_nat max_retries) 0%Z searches state.

(** ** The streaming generate node *)

Definition stream_no_docs_answer : string := "没有找到相关信息。".

(** ["\n\n".join([doc.page_content for doc in docs])] *)
Definition plain_context (docs : list Document) : string :=
  PyStr.join (PyStr.nl ++ PyStr.nl) (map page_content docs).

(** The node made by [create_stream_generate_node]: it has no [try], so what
    the template or the stream raises leaves the node. *)
Definition stream_generate_node (llm : collaborators) (template : prompt_template)
    (t : trace) (state : AgentState) : AgentState * option exn * trace :=
  let docs :=
    match retrieved_docs state with
    | Some ds => ds
    | None => []
    end in
  match docs with
  | [] => (set_answer (Some stream_no_docs_answer) state, None, t)
  | _ :: _ =>
      match template (plain_context docs) (question state) with
      | Raise e => (state, Some e, t)
      | Ok prompt =>
          let t' := (t ++ [LlmStreamGenerate prompt])%list in
          let stream := stream_generate llm t prompt in
          match snd stream with
          | Some e => (state, Some e, t')
          | None => (set_answer (Some (PyStr.concat_all (fst stream))) state, None, t')
          end
      end
  end.

(** ** Variants of the decide node *)

(** A state with the two keys only the variants read. *)
Record TrackedState : Type := mkTrackedState {
  agent : AgentState;
  retrieval_attempts : option Z;
  execution_path : option (list string)
}.

(** [len(set(xs))] *)
Definition distinct_count (xs : list string) : nat :=
  List.length (nodup string_dec xs).

Definition quality_based_decide_node (state : TrackedState) : string :=
  let s := agent state in
  let confidence :=
    match confidence_score s with
    | Some x => x
    | None => 0%Q
    end in
  if (get_step_count s >=? get_max_steps s)%Z then "end"
  else if PyStr.opt_truthy (answer s) && PyNum.ltb 0.8%Q confidence then "end"
  else if PyStr.opt_truthy (answer s) && PyNum.ltb confidence 0.6%Q then "refine_answer"
  else
    let retrieval_score := get_retrieval_score 0%Q s in
    if negb (docs_truthy s) then "retrieve"
    else if PyNum.ltb retrieval_score 0.5%Q then
      let attempts :=
        match retrieval_attempts state with
        | Some n => n
        | None => 0%Z
        end in
      if (attempts <? 2)%Z then "rewrite_and_retrieve" else "fallback_answer"
    else if PyNum.ltb retrieval_score 0.7%Q then "retrieve_more"
    else "generate".

(** [state.get("max_steps", 10)] *)
Definition get_max_steps_10 (s : AgentState) : Z :=
  match max_steps s with
  | Some n => n
  | None => 10%Z
  end.

(** The decision and the state afterwards: the node appends its decision to
    the execution path it finds in the state, or to a new one. *)
Definition loop_control_decide_node (state : TrackedState) : string * TrackedState :=
  let s := agent state in
  if (get_step_count s >=? get_max_steps_10 s)%Z then ("force_end", state)
  else
    let path :=
      match execution_path state with
      | Some p => p
      | None => []
      end in
    if (3 <=? List.length path)%nat && (distinct_count (lastn 3 path) =? 1)%nat
    then ("break_loop", state)
    else if negb (docs_truthy s) then
      ("retrieve",
       mkTrackedState s (retrieval_attempts state) (Some (path ++ ["retrieve"])%list))
    else if negb (PyStr.opt_truthy (answer s)) then
      ("generate",
       mkTrackedState s (retrieval_attempts state) (Some (path ++ ["generate"])%list))
    else ("end", state).

(** A caller that asks [loop_control_decide_node] [n] times in a row, nothing
    else touching the state in between: the decisions, oldest first, and the
    state afterwards. *)
Fixpoint ask_repeatedly (n : nat) (state : TrackedState) : list string * TrackedState :=
  match n with
  | O => ([], state)
  | S n' =>
      let r := loop_control_decide_node state in
      let rest := ask_repeatedly n' (snd r) in
      (fst r :: fst rest, snd rest)
  end.

(** The scores a store attaches lie between 0 and 1. *)
Definition scores_in_unit_interval (docs : list Document) : Prop :=
  Forall (fun doc => forall x, score (metadata doc) = Some x -> (0 <= x <= 1)%Q) docs.

(** * Properties *)

(** Reading a field of an updated state. *)
Ltac state_simpl :=
  unfold set_retrieval_query, set_retrieved_docs, set_retrieval_score,
    set_need_more_context, set_answer, set_confidence_score, set_current_node,
    set_step_count, set_error;
  simpl.

(** ** Conversation memory *)

Section MemoryFacts.

Context {A : Type}.

Lemma tl_skipn (m : nat) (l : list A) : tl (skipn m l) = skipn (S m) l.
Proof.
  revert l; induction m as [|m IH]; intros [|x l]; simpl; auto.
Qed.

Lemma lastn_length (n : nat) (l : list A) :
  List.length (lastn n l) = Nat.min n (List.length l).
Proof. unfold lastn. rewrite length_skipn. lia. Qed.

Lemma lastn_short (n : nat) (l : list A) :
  (List.length l <= n)%nat -> lastn n l = l.
Proof.
  intros H. unfold lastn.
  replace (List.length l - n)%nat with 0%nat by lia. reflexivity.
Qed.

(** Appending to a full window and dropping its head shifts the window. *)
Lemma lastn_snoc_full (n : nat) (l : list A) (x : A) :
  (0 < n)%nat -> (n <= List.length l)%nat ->
  tl (lastn n l ++ [x]) = lastn n (l ++ [x]).
Proof.
  intros Hn Hl. unfold lastn. rewrite length_app. simpl.
  replace (List.length l + 1 - n)%nat with (S (List.length l - n)) by lia.
  rewrite <- tl_skipn, skipn_app.
  replace (List.length l - n - List.length l)%nat with 0%nat by lia.
  reflexivity.
Qed.

End MemoryFacts.

(** One append keeps the window of the last [cap] turns. *)
Lemma add_to_history_window (cap : Z) (pre : list (string * string)) (q a : string) :
  (0 < cap)%Z ->
  _add_to_history (mkChain (lastn (Z.to_nat cap) pre) cap) q a
  = mkChain (lastn (Z.to_nat cap) (pre ++ [(q, a)])) cap.
Proof.
  intros Hcap. unfold _add_to_history. simpl.
  rewrite length_app, lastn_length. simpl.
  destruct (Nat.le_gt_cases (Z.to_nat cap) (List.length pre)) as [Hfull | Hroom].
  - replace (Z.of_nat (Nat.min (Z.to_nat cap) (List.length pre) + 1) >? cap)%Z
      with true by (symmetry; apply Z.gtb_lt; lia).
    rewrite lastn_snoc_full by lia. reflexivity.
  - replace (Z.of_nat (Nat.min (Z.to_nat cap) (List.length pre) + 1) >? cap)%Z
      with false by (symmetry; rewrite Z.gtb_ltb; apply Z.ltb_ge; lia).
    rewrite (lastn_short _ pre) by lia.
    rewrite lastn_short by (rewrite length_app; simpl; lia).
    reflexivity.
Qed.

Lemma add_turns_window (cap : Z) (turns pre : list (string * string)) :
  (0 < cap)%Z ->
  add_turns (mkChain (lastn (Z.to_nat cap) pre) cap) turns
  = mkChain (lastn (Z.to_nat cap) (pre ++ turns)) cap.
Proof.
  intros Hcap. revert pre.
  induction turns as [|[q a] turns IH]; intros pre; simpl.
  - rewrite app_nil_r. reflexivity.
  - unfold add_turns in *. simpl.
    rewrite add_to_history_window by assumption.
    rewrite IH, <- app_assoc. reflexivity.
Qed.

(** C7. With a positive capacity, a memory that starts empty holds, after any
    sequence of completed turns, at most [capacity] turns, and they are the
    most recent ones in the order they were made: the oldest go first. *)
Theorem memory_bounded_fifo (cap : Z) (turns : list (string * string))
    (Hcap : (0 < cap)%Z) :
  let memory := add_turns (new_chain cap) turns in
  (Z.of_nat (List.length (chat_history memory)) <= cap)%Z
  /\ chat_history memory = lastn (Z.to_nat cap) turns
  /\ max_history memory = cap.
Proof.
  pose proof (add_turns_window cap turns [] Hcap) as H.
  change (lastn (Z.to_nat cap) []) with (@nil (string * string)) in H.
  unfold new_chain. simpl in *. rewrite H. simpl.
  rewrite lastn_length. repeat split; lia.
Qed.

(** The capacity-three example: of four turns the last three remain. *)
Lemma memory_bounded_fifo_example :
  (0 < 3)%Z /\
  let memory :=
    add_turns (new_chain 3)
      [("q1", "a1"); ("q2", "a2"); ("q3", "a3"); ("q4", "a4")] in
  (Z.of_nat (List.length (chat_history memory)) <= 3)%Z
  /\ chat_history memory = [("q2", "a2"); ("q3", "a3"); ("q4", "a4")]
  /\ max_history memory = 3%Z.
Proof.
  split; [lia |].
  apply (memory_bounded_fifo 3
           [("q1", "a1"); ("q2", "a2"); ("q3", "a3"); ("q4", "a4")]).
  lia.
Defined.

(** ** The generate node on an empty retrieval *)

(** C6. When the retrieved documents are present but empty, the generate node
    answers with the fixed message, sets the confidence to 0.0, and calls the
    language model not at all: the trace of calls is left as it was. *)
Theorem generate_short_circuits_on_empty
    (llm : collaborators) (template : prompt_template) (include_sources : bool)
    (t : trace) (state : AgentState)
    (Hdocs : retrieved_docs state = Some []) :
  let r := generate_node llm template include_sources t state in
  answer (fst r) = Some no_docs_answer
  /\ confidence_score (fst r) = Some 0.0%Q
  /\ snd r = t
  /\ llm_calls (snd r) = llm_calls t.
Proof.
  unfold generate_node. rewrite Hdocs. simpl. auto.
Qed.

Lemma generate_short_circuits_on_empty_example :
  let state := set_retrieved_docs (Some []) (create_initial_state "anything" 5) in
  let llm := stub (Ok []) (Ok "unused") ([], None) in
  retrieved_docs state = Some []
  /\ (let r := generate_node llm default_template false [] state in
      answer (fst r) = Some no_docs_answer
      /\ confidence_score (fst r) = Some 0.0%Q
      /\ snd r = []
      /\ llm_calls (snd r) = llm_calls []).
Proof.
  split; [reflexivity |].
  apply (generate_short_circuits_on_empty
           (stub (Ok []) (Ok "unused") ([], None)) default_template false []
           (set_retrieved_docs (Some []) (create_initial_state "anything" 5))).
  reflexivity.
Defined.

(** ** The retrieve node *)

(** The claim of C3 fails: one document scored 0.9 with [k = 4] gives a
    retrieval score that is not below 0.6, and yet [need_more_context] is
    set, because one document is fewer than [k // 2]. *)
Lemma need_more_context_despite_good_score :
  let store := stub (Ok [scored_doc "d" 0.9%Q]) (Ok "a") ([], None) in
  let state := fst (retrieve_node store 4 None [] (create_initial_state "q" 5)) in
  exists r,
    retrieval_score state = Some r
    /\ PyNum.ltb r 0.6%Q = false
    /\ need_more_context state = Some true.
Proof.
  eexists. split; [reflexivity |]. split; reflexivity.
Qed.

(** C3, amended.  After every execution of the retrieve node the flag
    [need_more_context] equals [retrieval_score < 0.6 or len(docs) < k // 2],
    for the score and the documents the node has stored. *)
Theorem need_more_context_rule
    (vectorstore : collaborators) (k : Z) (score_threshold : option Q)
    (t : trace) (state : AgentState) :
  let state' := fst (retrieve_node vectorstore k score_threshold t state) in
  exists (r : Q) (docs : list Document),
    retrieval_score state' = Some r
    /\ retrieved_docs state' = Some docs
    /\ need_more_context state'
       = Some (PyNum.ltb r 0.6%Q || (Z.of_nat (List.length docs) <? k / 2)%Z).
Proof.
  unfold retrieve_node.
  destruct (similarity_search vectorstore t (effective_query state) k) as [found | e].
  - destruct (compute_retrieval_score k (filter_by_threshold score_threshold found))
      as [r | e] eqn:Hscore.
    + exists r, (filter_by_threshold score_threshold found). simpl. auto.
    + exists 0.0%Q, []. simpl. auto.
  - exists 0.0%Q, []. simpl. auto.
Qed.

(** ** The decide node *)

(** The claim of C4 fails: after a retrieval of one document scored 0.55 with
    [k = 4] no terminal condition holds, the documents are present and
    [need_more_context] is set, and the decision is to generate. *)
Lemma decide_generates_despite_need_more_context :
  let store := stub (Ok [scored_doc "d" 0.55%Q]) (Ok "a") ([], None) in
  let state := fst (retrieve_node store 4 None [] (create_initial_state "q" 5)) in
  (get_step_count state < get_max_steps state)%Z
  /\ answer state = None
  /\ error state = None
  /\ retrieved_docs state = Some [scored_doc "d" 0.55%Q]
  /\ need_more_context state = Some true
  /\ decide_node state = Generate.
Proof.
  repeat split; reflexivity.
Qed.

(** C4, amended.  For every state in which no terminal condition holds, the
    retrieved documents are present, [need_more_context] is true and the
    retrieval score (0 when absent) is strictly below 0.5, [decide_node]
    returns ["rewrite_query"]. *)
Theorem decide_rewrites_when_score_below_half (state : AgentState)
    (Hbudget : (get_step_count state < get_max_steps state)%Z)
    (Hanswer : PyStr.opt_truthy (answer state) = false)
    (Herror : PyStr.opt_truthy (error state) = false)
    (Hdocs : retrieved_docs state <> None)
    (Hneed : need_more_context state = Some true)
    (Hscore : PyNum.ltb (get_retrieval_score 0%Q state) 0.5%Q = true) :
  decide_node state = RewriteQuery.
Proof.
  unfold decide_node.
  replace (get_step_count state >=? get_max_steps state)%Z with false
    by (symmetry; rewrite Z.geb_leb; apply Z.leb_gt; lia).
  rewrite Hanswer, Herror.
  destruct (retrieved_docs state) as [docs |]; [| congruence].
  unfold get_need_more_context. rewrite Hneed, Hscore. reflexivity.
Qed.

Lemma decide_rewrites_when_score_below_half_example :
  let store := stub (Ok [scored_doc "d" 0.4%Q]) (Ok "a") ([], None) in
  let state := fst (retrieve_node store 4 None [] (create_initial_state "q" 5)) in
  (get_step_count state < get_max_steps state)%Z
  /\ PyStr.opt_truthy (answer state) = false
  /\ PyStr.opt_truthy (error state) = false
  /\ retrieved_docs state <> None
  /\ need_more_context state = Some true
  /\ PyNum.ltb (get_retrieval_score 0%Q state) 0.5%Q = true
  /\ decide_node state = RewriteQuery.
Proof.
  assert (Hbudget : (1 < 5)%Z) by lia.
  assert (Hdocs : Some [scored_doc "d" 0.4%Q] <> None) by discriminate.
  do 6 (split; [first [reflexivity | exact Hdocs] |]).
  apply (decide_rewrites_when_score_below_half
           (fst (retrieve_node (stub (Ok [scored_doc "d" 0.4%Q]) (Ok "a") ([], None))
                   4 None [] (create_initial_state "q" 5))));
    solve [ exact Hbudget | reflexivity | exact Hdocs ].
Defined.

(** ** The retrieval score *)

Lemma scores_of_all_scored (docs : list Document) (xs : list Q) :
  map (fun doc => score (metadata doc)) docs = map Some xs ->
  map (score_or 0%Q) docs = xs.
Proof.
  revert xs; induction docs as [|doc docs IH]; intros [|x xs] H;
    simpl in *; try discriminate; auto.
  injection H as Hx Hrest. unfold score_or at 1. rewrite Hx.
  f_equal. auto.
Qed.

(** The claim of C5 fails on a mixed result: of two documents, the first
    scored 0.9 and the second without a score, the node makes 0.45, which is
    neither the mean of the scores carried (0.9) nor [min(2 / 4, 1.0)]. *)
Lemma mixed_result_follows_neither_formula :
  let found := [scored_doc "d" 0.9%Q; plain_doc "e"] in
  let store := stub (Ok found) (Ok "a") ([], None) in
  let state := fst (retrieve_node store 4 None [] (create_initial_state "q" 5)) in
  exists r,
    retrieval_score state = Some r
    /\ (r == 0.45)%Q
    /\ ~ (r == 0.9)%Q
    /\ ~ (r == PyNum.min (PyNum.of_len 2 / inject_Z 4) 1.0)%Q.
Proof.
  eexists. split; [reflexivity |]. split; [reflexivity |].
  split; intros H; vm_compute in H; discriminate H.
Qed.

(** C5, amended.  The retrieve node scores the documents it keeps, which are
    all the documents found unless a score threshold is configured.  No
    document gives 0.0.  When the first document carries a score, the result
    is the sum of the scores, a document without one counting as 0, divided by
    the number of documents; this is the arithmetic mean of the scores when
    every document carries one.  When the first document carries no score and
    [k] is not zero, the result is [min(len(docs) / k, 1.0)]. *)
Theorem retrieval_score_formula
    (vectorstore : collaborators) (k : Z) (score_threshold : option Q)
    (t : trace) (state : AgentState) (found : list Document)
    (Hfound : similarity_search vectorstore t (effective_query state) k = Ok found) :
  let docs := filter_by_threshold score_threshold found in
  let state' := fst (retrieve_node vectorstore k score_threshold t state) in
  exists r : Q,
    retrieval_score state' = Some r
    /\ (docs = [] -> r = 0.0%Q)
    /\ (forall first rest x,
          docs = first :: rest -> score (metadata first) = Some x ->
          r = (PyNum.sum (map (score_or 0%Q) docs) / PyNum.of_len (List.length docs))%Q)
    /\ (forall xs,
          docs <> [] -> map (fun doc => score (metadata doc)) docs = map Some xs ->
          r = (PyNum.sum xs / PyNum.of_len (List.length xs))%Q)
    /\ (forall first rest,
          docs = first :: rest -> score (metadata first) = None -> k <> 0%Z ->
          r = PyNum.min (PyNum.of_len (List.length docs) / inject_Z k)%Q 1.0%Q).
Proof.
  intros docs state'. subst state'. unfold retrieve_node. rewrite Hfound.
  fold docs. destruct docs as [|first rest] eqn:Hdocs.
  - simpl. exists 0.0%Q. split; [reflexivity |]. split; [reflexivity |].
    split; [discriminate |]. split; [congruence | discriminate].
  - unfold compute_retrieval_score. cbv zeta.
    destruct (score (metadata first)) as [x |] eqn:Hfirst.
    + simpl fst. eexists. split; [reflexivity |].
      split; [discriminate |]. split.
      * intros first' rest' x' _ _. rewrite length_map. reflexivity.
      * split.
        -- intros xs _ Hall.
           rewrite <- (scores_of_all_scored _ _ Hall). reflexivity.
        -- intros first' rest' Heq Hnone. congruence.
    + destruct (k =? 0)%Z eqn:Hk.
      * simpl fst. exists 0.0%Q. split; [reflexivity |].
        split; [discriminate |]. split; [congruence |]. split.
        -- intros [|x xs] _ Hall; simpl in Hall; congruence.
        -- intros first' rest' _ _ Hk'. apply Z.eqb_eq in Hk. contradiction.
      * simpl fst. eexists. split; [reflexivity |].
        split; [discriminate |]. split; [congruence |]. split.
        -- intros [|x xs] _ Hall; simpl in Hall; congruence.
        -- intros first' rest' _ _ _. reflexivity.
Qed.

Lemma retrieval_score_formula_example :
  let found :=
    [scored_doc "a" 0.9%Q; scored_doc "b" 0.7%Q;
     scored_doc "c" 0.5%Q; scored_doc "d" 0.3%Q] in
  let store := stub (Ok found) (Ok "a") ([], None) in
  let state := create_initial_state "q" 5 in
  similarity_search store [] (effective_query state) 4 = Ok found
  /\ exists r : Q,
       retrieval_score (fst (retrieve_node store 4 None [] state)) = Some r
       /\ (r == 0.6)%Q.
Proof.
  split; [reflexivity |].
  destruct (retrieval_score_formula
              (stub (Ok [scored_doc "a" 0.9%Q; scored_doc "b" 0.7%Q;
                         scored_doc "c" 0.5%Q; scored_doc "d" 0.3%Q])
                    (Ok "a") ([], None))
              4 None [] (create_initial_state "q" 5)
              [scored_doc "a" 0.9%Q; scored_doc "b" 0.7%Q;
               scored_doc "c" 0.5%Q; scored_doc "d" 0.3%Q]
              eq_refl) as [r [Hr [_ [_ [Hmean _]]]]].
  exists r. split; [exact Hr |].
  rewrite (Hmean [0.9%Q; 0.7%Q; 0.5%Q; 0.3%Q]); [reflexivity | discriminate | reflexivity].
Defined.

(** Two documents without scores and [k = 4] give 0.5. *)
Example retrieval_score_by_volume :
  let store := stub (Ok [plain_doc "a"; plain_doc "b"]) (Ok "a") ([], None) in
  exists r : Q,
    retrieval_score (fst (retrieve_node store 4 None [] (create_initial_state "q" 5)))
    = Some r
    /\ (r == 0.5)%Q.
Proof.
  eexists. split; reflexivity.
Qed.

(** With a threshold of 0.5 the mean is taken over the documents kept. *)
Example retrieval_score_after_threshold :
  let store := stub (Ok [scored_doc "a" 0.9%Q; scored_doc "b" 0.3%Q]) (Ok "a") ([], None) in
  exists r : Q,
    retrieval_score
      (fst (retrieve_node store 4 (Some 0.5%Q) [] (create_initial_state "q" 5)))
    = Some r
    /\ (r == 0.9)%Q.
Proof.
  eexists. split; reflexivity.
Qed.

(** ** The query of the retrieve node *)

Lemma search_calls_snoc (t : trace) (q : string) (k : Z) :
  search_calls (t ++ [SimilaritySearch q k])%list = S (search_calls t).
Proof.
  unfold search_calls. rewrite filter_app, length_app. simpl. lia.
Qed.

Lemma llm_calls_snoc_search (t : trace) (q : string) (k : Z) :
  llm_calls (t ++ [SimilaritySearch q k])%list = llm_calls t.
Proof.
  unfold llm_calls. rewrite filter_app, length_app. simpl. lia.
Qed.

(** The claim of C9 fails: on a question of three spaces the store is
    searched with it, the retrieval fields are set and no error is. *)
Lemma blank_query_is_searched :
  let store := stub (Ok []) (Ok "a") ([], None) in
  let state := create_initial_state "   " 5 in
  let r := retrieve_node store 4 None [] state in
  PyStr.blank (effective_query state) = true
  /\ error (fst r) = None
  /\ retrieved_docs (fst r) = Some []
  /\ retrieval_score (fst r) = Some 0.0%Q
  /\ snd r = [SimilaritySearch "   " 4].
Proof.
  repeat split; reflexivity.
Qed.

(** C9, amended.  The retrieve node does not check its query.  For every
    state, also one whose effective query is empty or white space only, it
    searches the store once with the effective query and sets the retrieved
    documents and the retrieval score.  The error field is left as it was
    when the search and the scoring succeed; when one of them raises, the
    error is set, the documents to the empty list and the score to 0.0. *)
Theorem retrieve_searches_any_query
    (vectorstore : collaborators) (k : Z) (score_threshold : option Q)
    (t : trace) (state : AgentState) :
  let r := retrieve_node vectorstore k score_threshold t state in
  snd r = (t ++ [SimilaritySearch (effective_query state) k])%list
  /\ search_calls (snd r) = S (search_calls t)
  /\ retrieved_docs (fst r) <> None
  /\ retrieval_score (fst r) <> None
  /\ (error (fst r) = error state
      \/ exists e,
           error (fst r) = Some ("检索失败: " ++ e)
           /\ retrieved_docs (fst r) = Some []
           /\ retrieval_score (fst r) = Some 0.0%Q)
  /\ (forall found x,
        similarity_search vectorstore t (effective_query state) k = Ok found ->
        compute_retrieval_score k (filter_by_threshold score_threshold found) = Ok x ->
        error (fst r) = error state
        /\ retrieved_docs (fst r) = Some (filter_by_threshold score_threshold found))
  /\ (forall e,
        similarity_search vectorstore t (effective_query state) k = Raise e ->
        error (fst r) = Some ("检索失败: " ++ e)).
Proof.
  unfold retrieve_node.
  destruct (similarity_search vectorstore t (effective_query state) k) as [found | e].
  - destruct (compute_retrieval_score k (filter_by_threshold score_threshold found))
      as [x | e] eqn:Hscore; simpl;
      (split; [reflexivity |]); (split; [apply search_calls_snoc |]);
      (split; [discriminate |]); (split; [discriminate |]).
    + split; [left; reflexivity |]. split.
      * intros found' x' Hf _. injection Hf as <-. auto.
      * discriminate.
    + split; [right; exists e; auto |]. split.
      * intros found' x' Hf Hx. injection Hf as <-. congruence.
      * discriminate.
  - simpl. split; [reflexivity |]. split; [apply search_calls_snoc |].
    split; [discriminate |]. split; [discriminate |].
    split; [right; exists e; auto |]. split.
    + discriminate.
    + intros e' He. injection He as <-. reflexivity.
Qed.

(** ** The conversational chain *)

(** With room for at least one turn, the turn just added is the last one. *)
Lemma add_to_history_last (self : ConversationalRAGChain) (q a : string) :
  (1 <= max_history self)%Z ->
  exists kept, chat_history (_add_to_history self q a) = (kept ++ [(q, a)])%list.
Proof.
  intros Hcap. unfold _add_to_history.
  destruct (Z.of_nat (List.length (chat_history self ++ [(q, a)])) >? max_history self)%Z
    eqn:Hfull; simpl.
  - destruct (chat_history self) as [|old kept] eqn:Hh.
    + simpl in Hfull. apply Z.gtb_lt in Hfull. lia.
    + exists kept. reflexivity.
  - exists (chat_history self). reflexivity.
Qed.

Section ChainFacts.

Variable env : collaborators.
Variable template : conversational_template.

(** Resuming the generator inside the loop, while increments remain. *)
Lemma take_in_loop (q : string) (k : Z) (self : ConversationalRAGChain) (t : trace)
    (n : nat) (answer_parts pending : list string) (failure : option exn) :
  (n <= List.length pending)%nat ->
  stream_query_take env template n q k
    (AtChunkYield answer_parts pending failure) self t
  = (map Yielded (firstn n pending),
     AtChunkYield (answer_parts ++ firstn n pending)%list (skipn n pending) failure,
     self, t).
Proof.
  revert answer_parts pending.
  induction n as [|n IH]; intros answer_parts pending Hn.
  - simpl. rewrite app_nil_r. reflexivity.
  - destruct pending as [|chunk rest]; [simpl in Hn; lia |].
    simpl in Hn. simpl. rewrite IH by lia.
    rewrite <- app_assoc. reflexivity.
Qed.

(** Draining the generator from inside the loop when the model does not
    fail: every pending increment is received and the joined parts are
    saved when the iterator is exhausted. *)
Lemma drain_in_loop (q : string) (k : Z) (self : ConversationalRAGChain) (t : trace)
    (pending answer_parts received : list string) (fuel : nat) :
  (List.length pending < fuel)%nat ->
  stream_query_drain env template fuel q k
    (AtChunkYield answer_parts pending None) self t received
  = Some ((received ++ pending)%list, None,
          _add_to_history self q (PyStr.concat_all (answer_parts ++ pending)%list), t).
Proof.
  revert answer_parts received fuel.
  induction pending as [|chunk rest IH]; intros answer_parts received fuel Hfuel;
    (destruct fuel as [|fuel]; [simpl in Hfuel; lia |]).
  - simpl. rewrite !app_nil_r. reflexivity.
  - simpl in Hfuel. simpl. rewrite IH by lia.
    rewrite <- !app_assoc. reflexivity.
Qed.

End ChainFacts.

(** C10.  When the store finds nothing for a question, the blocking query
    returns the fixed fallback answer and the streaming query yields it as its
    only increment; both save the turn (question, fallback) with
    [_add_to_history], and neither calls the language model.  With room for at
    least one turn the saved turn is the last of the history. *)
Theorem empty_retrieval_is_recorded
    (env : collaborators) (template : conversational_template)
    (t : trace) (self : ConversationalRAGChain) (q : string) (k : Z)
    (Hempty : similarity_search env t q k = Ok []) :
  let saved := _add_to_history self q chain_no_docs_answer in
  let t' := (t ++ [SimilaritySearch q k])%list in
  query env template t self q k = (Ok chain_no_docs_answer, saved, t')
  /\ stream_query_next env template q k NotStarted self t
     = (Yielded chain_no_docs_answer, AtFallbackYield, saved, t')
  /\ stream_query_drain env template 2 q k NotStarted self t []
     = Some ([chain_no_docs_answer], None, saved, t')
  /\ llm_calls t' = llm_calls t
  /\ ((1 <= max_history self)%Z ->
      exists kept, chat_history saved = (kept ++ [(q, chain_no_docs_answer)])%list).
Proof.
  intros saved t'. subst saved t'.
  unfold query, stream_query_drain, stream_query_next. rewrite Hempty.
  split; [reflexivity |]. split; [reflexivity |]. split; [reflexivity |].
  split; [apply llm_calls_snoc_search |]. apply add_to_history_last.
Qed.

Lemma empty_retrieval_is_recorded_example :
  let env := stub (Ok []) (Ok "unused") (["unused"], None) in
  let self := new_chain 3 in
  similarity_search env [] "q" 4 = Ok []
  /\ query env default_conversational_template [] self "q" 4
     = (Ok chain_no_docs_answer, mkChain [("q", chain_no_docs_answer)] 3,
        [SimilaritySearch "q" 4])
  /\ stream_query_next env default_conversational_template "q" 4 NotStarted self []
     = (Yielded chain_no_docs_answer, AtFallbackYield,
        mkChain [("q", chain_no_docs_answer)] 3, [SimilaritySearch "q" 4]).
Proof.
  split; [reflexivity |].
  destruct (empty_retrieval_is_recorded
              (stub (Ok []) (Ok "unused") (["unused"], None))
              default_conversational_template [] (new_chain 3) "q" 4 eq_refl)
    as [Hblocking [Hstreaming _]].
  split; [exact Hblocking | exact Hstreaming].
Defined.

(** Without documents no prompt is built and the language model is not
    called: the first [next()] saves the fallback turn and then suspends the
    generator at the [yield] of the fallback answer. *)
Lemma fallback_turn_saved_before_stream_ends :
  let env := stub (Ok []) (Ok "answer") (["ans"; "wer"], None) in
  let self := new_chain 3 in
  let r := stream_query_next env default_conversational_template "q" 4 NotStarted self [] in
  PyStr.concat_all ["ans"; "wer"] = "answer"
  /\ chat_history self = []
  /\ fst (fst (fst r)) = Yielded chain_no_docs_answer
  /\ snd (fst (fst r)) = AtFallbackYield
  /\ chat_history (snd (fst r)) = [("q", chain_no_docs_answer)].
Proof.
  repeat split; reflexivity.
Qed.

Section StreamFacts.

Variable env : collaborators.
Variable template : conversational_template.
Variables (q : string) (k : Z) (self : ConversationalRAGChain).

(** Two suspended generators that resume alike drain alike. *)
Lemma drain_same_next (pc pc' : stream_pc) (t t' : trace) :
  stream_query_next env template q k pc self t
  = stream_query_next env template q k pc' self t' ->
  forall fuel received,
    stream_query_drain env template fuel q k pc self t received
    = stream_query_drain env template fuel q k pc' self t' received.
Proof.
  intros Hnext [|fuel] received; simpl; [reflexivity |].
  rewrite Hnext. reflexivity.
Qed.

Lemma take_same_next (pc pc' : stream_pc) (t t' : trace) :
  stream_query_next env template q k pc self t
  = stream_query_next env template q k pc' self t' ->
  forall n,
    stream_query_take env template (S n) q k pc self t
    = stream_query_take env template (S n) q k pc' self t'.
Proof.
  intros Hnext n. simpl. rewrite Hnext. reflexivity.
Qed.

(** One resumption more than there are increments ends the stream and
    saves the turn. *)
Lemma take_all_in_loop (t : trace) (pending answer_parts : list string) :
  stream_query_take env template (S (List.length pending)) q k
    (AtChunkYield answer_parts pending None) self t
  = ((map Yielded pending ++ [StopIteration])%list, Finished,
     _add_to_history self q (PyStr.concat_all (answer_parts ++ pending)%list), t).
Proof.
  revert answer_parts.
  induction pending as [|chunk rest IH]; intros answer_parts.
  - simpl. rewrite app_nil_r. reflexivity.
  - change (List.length (chunk :: rest)) with (S (List.length rest)).
    remember (S (List.length rest)) as n eqn:Hn.
    simpl. subst n. rewrite IH. rewrite <- app_assoc. reflexivity.
Qed.

(** With documents found and the prompt built, the first resumption is the
    first turn of the loop over the increments of the model. *)
Lemma first_next_enters_loop (t : trace) (docs : list Document) (prompt : string)
    (chunks : list string) :
  similarity_search env t q k = Ok docs -> docs <> [] ->
  template (_format_history self) (chain_context docs) q = Ok prompt ->
  stream_generate env (t ++ [SimilaritySearch q k])%list prompt = (chunks, None) ->
  stream_query_next env template q k NotStarted self t
  = stream_query_next env template q k (AtChunkYield [] chunks None) self
      ((t ++ [SimilaritySearch q k]) ++ [LlmStreamGenerate prompt])%list.
Proof.
  intros Hdocs Hne Hprompt Hstream. unfold stream_query_next.
  rewrite Hdocs. destruct docs as [|doc docs]; [congruence |].
  rewrite Hprompt, Hstream. reflexivity.
Qed.

End StreamFacts.

(** C8.  For a language-model stub that never fails and whose streamed
    increments join to the string its blocking call returns for the same
    prompt, the streaming query, drained, yields increments that join to the
    string the blocking query returns from the same chain and question, and
    leaves the same history, with that concatenation saved as the answer.
    When a prompt is built, that is when the store found documents, the
    history is untouched for as long as the consumer has taken no more than
    the increments of the model, and the turn is appended by the [next()]
    that finds the stream exhausted.  Without documents no prompt is built
    and the model is not called; the fallback answer is then the only
    increment and is saved as the turn is yielded. *)
Theorem streaming_agrees_with_blocking
    (env : collaborators) (template : conversational_template)
    (answer_of : string -> string) (chunks_of : string -> list string)
    (Hgenerate : forall t p, generate env t p = Ok (answer_of p))
    (Hstream : forall t p, stream_generate env t p = (chunks_of p, None))
    (Hjoin : forall p, PyStr.concat_all (chunks_of p) = answer_of p)
    (t : trace) (self : ConversationalRAGChain) (q : string) (k : Z) :
  (exists fuel received failure self_s t_s,
     stream_query_drain env template fuel q k NotStarted self t []
     = Some (received, failure, self_s, t_s)
     /\ match query env template t self q k with
        | (Ok a, self_b, _) =>
            failure = None
            /\ PyStr.concat_all received = a
            /\ self_s = self_b
            /\ self_b = _add_to_history self q a
        | (Raise _, self_b, _) =>
            failure <> None /\ received = [] /\ self_s = self /\ self_b = self
        end)
  /\ (forall docs prompt n,
        similarity_search env t q k = Ok docs -> docs <> [] ->
        template (_format_history self) (chain_context docs) q = Ok prompt ->
        (n <= List.length (chunks_of prompt))%nat ->
        let r := stream_query_take env template n q k NotStarted self t in
        fst (fst (fst r)) = map Yielded (firstn n (chunks_of prompt))
        /\ snd (fst (fst r)) <> Finished
        /\ snd (fst r) = self)
  /\ (forall docs prompt,
        similarity_search env t q k = Ok docs -> docs <> [] ->
        template (_format_history self) (chain_context docs) q = Ok prompt ->
        let r := stream_query_take env template
                   (S (List.length (chunks_of prompt))) q k NotStarted self t in
        fst (fst (fst r)) = (map Yielded (chunks_of prompt) ++ [StopIteration])%list
        /\ snd (fst (fst r)) = Finished
        /\ snd (fst r) = _add_to_history self q (PyStr.concat_all (chunks_of prompt)))
  /\ (similarity_search env t q k = Ok [] ->
      let r := stream_query_next env template q k NotStarted self t in
      fst (fst (fst r)) = Yielded chain_no_docs_answer
      /\ snd (fst (fst r)) = AtFallbackYield
      /\ snd (fst r) = _add_to_history self q chain_no_docs_answer).
Proof.
  split; [| split; [| split]].
  - unfold query.
    destruct (similarity_search env t q k) as [[|doc docs] | e] eqn:Hsearch.
    + exists 2%nat. do 4 eexists. split.
      * simpl. rewrite Hsearch. reflexivity.
      * auto.
    + destruct (template (_format_history self) (chain_context (doc :: docs)) q)
        as [prompt | e] eqn:Hprompt.
      * exists (S (List.length (chunks_of prompt))). do 4 eexists. split.
        -- rewrite (drain_same_next env template q k self _ _ _ _
                      (first_next_enters_loop env template q k self t (doc :: docs)
                         prompt (chunks_of prompt) Hsearch ltac:(discriminate)
                         Hprompt (Hstream _ _))).
           apply drain_in_loop. lia.
        -- rewrite Hgenerate. simpl. rewrite Hjoin. auto.
      * exists 1%nat. do 4 eexists. split.
        -- simpl. rewrite Hsearch, Hprompt. reflexivity.
        -- repeat split; try reflexivity; discriminate.
    + exists 1%nat. do 4 eexists. split.
      * simpl. rewrite Hsearch. reflexivity.
      * repeat split; try reflexivity; discriminate.
  - intros docs prompt n Hdocs Hne Hprompt Hn r. subst r.
    destruct n as [|n].
    + simpl. repeat split; discriminate.
    + rewrite (take_same_next env template q k self _ _ _ _
                 (first_next_enters_loop env template q k self t docs
                    prompt (chunks_of prompt) Hdocs Hne Hprompt (Hstream _ _))).
      rewrite take_in_loop by exact Hn.
      simpl. repeat split; discriminate.
  - intros docs prompt Hdocs Hne Hprompt r. subst r.
    rewrite (take_same_next env template q k self _ _ _ _
               (first_next_enters_loop env template q k self t docs
                  prompt (chunks_of prompt) Hdocs Hne Hprompt (Hstream _ _))).
    rewrite take_all_in_loop. simpl. auto.
  - intros Hempty r. subst r. unfold stream_query_next. rewrite Hempty. auto.
Qed.

Lemma streaming_agrees_with_blocking_example :
  let env := stub (Ok [plain_doc "d"]) (Ok "answer") (["ans"; "wer"], None) in
  (forall t p, generate env t p = Ok "answer")
  /\ (forall t p, stream_generate env t p = (["ans"; "wer"], None))
  /\ PyStr.concat_all ["ans"; "wer"] = "answer"
  /\ exists fuel received failure self_s t_s,
       stream_query_drain env default_conversational_template fuel "q" 4
         NotStarted (new_chain 3) [] []
       = Some (received, failure, self_s, t_s)
       /\ failure = None
       /\ PyStr.concat_all received = "answer"
       /\ self_s = mkChain [("q", "answer")] 3.
Proof.
  split; [reflexivity |]. split; [reflexivity |]. split; [reflexivity |].
  destruct (streaming_agrees_with_blocking
              (stub (Ok [plain_doc "d"]) (Ok "answer") (["ans"; "wer"], None))
              default_conversational_template
              (fun _ => "answer") (fun _ => ["ans"; "wer"])
              (fun _ _ => eq_refl) (fun _ _ => eq_refl) (fun _ => eq_refl)
              [] (new_chain 3) "q" 4)
    as [[fuel [received [failure [self_s [t_s [Hdrain Hquery]]]]]] _].
  exists fuel, received, failure, self_s, t_s.
  split; [exact Hdrain |].
  simpl in Hquery. destruct Hquery as [Hfailure [Hreceived [Hself Hsaved]]].
  split; [exact Hfailure |]. split; [exact Hreceived |].
  rewrite Hself. reflexivity.
Defined.

(** ** The driver loop *)

Lemma turn_outcome_exactly_one (budget : Z) (state : AgentState) :
  turn_outcome budget state ->
  exactly_one_of (answered state) (retrieval_failed state)
                 (generation_failed state) (budget_exhausted budget state).
Proof.
  unfold exactly_one_of, answered, retrieval_failed, generation_failed,
    budget_exhausted.
  intros [Ha He | e He Ha | e He Ha | Ha He Hn].
  - left. split; [auto |]. repeat split.
    + intros [_ H]. congruence.
    + intros [[e H] _]. rewrite H in He. discriminate.
    + intros [H _]. congruence.
  - right; left. repeat split; eauto.
    + intros [H _]. congruence.
    + intros [_ H]. rewrite H in Ha. discriminate.
    + intros [_ [H _]]. rewrite He in H. discriminate.
  - right; right; left. repeat split; eauto.
    + intros [_ H]. rewrite He in H. discriminate.
    + intros [_ H]. rewrite Ha in H. discriminate.
    + intros [H _]. rewrite Ha in H. discriminate.
  - right; right; right. repeat split; auto.
    + intros [H _]. congruence.
    + intros [[e H] _]. rewrite H in He. discriminate.
    + intros [[e H] _]. rewrite H in He. discriminate.
Qed.

Section LoopFacts.

Variable env : collaborators.
Variable k : Z.
Variable score_threshold : option Q.
Variable template : prompt_template.
Variable include_sources : bool.
Variable rewriter : option (AgentState -> string).

Local Notation "'step'" :=
  (dispatch env k score_threshold template include_sources rewriter).
Local Notation "'loop'" :=
  (run_loop env k score_threshold template include_sources rewriter).

Lemma run_loop_at_end (fuel : nat) (t : trace) (state : AgentState) (n : nat) :
  decide_node state = End_ -> loop fuel t state n = Some (state, t, n).
Proof.
  intros Hend. destruct fuel; simpl; rewrite Hend; reflexivity.
Qed.

Lemma run_loop_step (fuel : nat) (t : trace) (state : AgentState) (n : nat) :
  decide_node state <> End_ ->
  loop (S fuel) t state n
  = loop fuel (snd (step (decide_node state) t state))
      (fst (step (decide_node state) t state)) (S n).
Proof.
  intros Hd. simpl. destruct (decide_node state); congruence || reflexivity.
Qed.

(** A running state that [decide_node] ends has used up its budget. *)
Lemma running_end (budget : Z) (state : AgentState) :
  running budget state -> decide_node state = End_ ->
  get_step_count state = budget.
Proof.
  intros (Hmax & Hcount & Ha & He & Hdocs). unfold decide_node.
  unfold get_max_steps. rewrite Hmax, Ha, He.
  destruct (get_step_count state >=? budget)%Z eqn:Hge.
  - intros _. rewrite Z.geb_leb in Hge. apply Z.leb_le in Hge. lia.
  - destruct (retrieved_docs state) as [[|doc docs] |] eqn:Hd.
    + destruct (Hdocs eq_refl) as [Hneed Hlow]. rewrite Hneed, Hlow. discriminate.
    + unfold docs_truthy. rewrite Hd.
      destruct (get_need_more_context state && _); discriminate.
    + discriminate.
Qed.

Lemma running_not_end (budget : Z) (state : AgentState) :
  running budget state -> decide_node state <> End_ ->
  (get_step_count state < budget)%Z.
Proof.
  intros (Hmax & Hcount & _) Hd.
  destruct (Z.lt_ge_cases (get_step_count state) budget) as [|Hge]; [assumption |].
  exfalso. apply Hd. unfold decide_node, get_max_steps. rewrite Hmax.
  replace (get_step_count state >=? budget)%Z with true; [reflexivity |].
  symmetry. rewrite Z.geb_leb. apply Z.leb_le. lia.
Qed.

Lemma decide_end_of_answer (state : AgentState) :
  PyStr.opt_truthy (answer state) = true -> decide_node state = End_.
Proof.
  intros Ha. unfold decide_node. rewrite Ha.
  destruct (get_step_count state >=? get_max_steps state)%Z; reflexivity.
Qed.

Lemma decide_end_of_error (state : AgentState) :
  PyStr.opt_truthy (error state) = true -> decide_node state = End_.
Proof.
  intros He. unfold decide_node. rewrite He.
  destruct (get_step_count state >=? get_max_steps state)%Z;
    destruct (PyStr.opt_truthy (answer state)); reflexivity.
Qed.

Lemma retrieve_step (budget : Z) (t : trace) (state : AgentState) :
  running budget state -> (get_step_count state < budget)%Z ->
  step_result budget state
    (fst (retrieve_node env k score_threshold t state)).
Proof.
  intros (Hmax & Hcount & Ha & He & Hdocs) Hlt.
  assert (Hfail : forall e,
             step_result budget state (retrieve_failed e state)).
  { intros e. right. split.
    - apply decide_end_of_error. reflexivity.
    - apply RetrievalFailed with (e := e); [reflexivity | exact Ha]. }
  unfold retrieve_node.
  destruct (similarity_search env t (effective_query state) k) as [found | e];
    [| apply Hfail].
  destruct (compute_retrieval_score k (filter_by_threshold score_threshold found))
    as [x | e] eqn:Hscore; [| apply Hfail].
  left. simpl. unfold running, compute_need_more_context. state_simpl.
  split; [| reflexivity].
  split; [assumption |]. split; [lia |].
  split; [assumption |]. split; [assumption |].
  intros Hnil. injection Hnil as Hnil. rewrite Hnil in Hscore.
  simpl in Hscore. injection Hscore as <-. split; reflexivity.
Qed.

Lemma generate_step (budget : Z) (t : trace) (state : AgentState) :
  running budget state -> (get_step_count state < budget)%Z ->
  step_result budget state
    (fst (generate_node env template include_sources t state)).
Proof.
  intros (Hmax & Hcount & Ha & He & Hdocs) Hlt.
  assert (Hfail : forall e,
             step_result budget state (generate_failed e state)).
  { intros e. right. split.
    - apply decide_end_of_error. reflexivity.
    - apply GenerationFailed with (e := e); reflexivity. }
  assert (Hnone : step_result budget state (generate_no_docs state)).
  { right. split.
    - apply decide_end_of_answer. reflexivity.
    - apply Answered; [reflexivity | exact He]. }
  unfold generate_node.
  destruct (retrieved_docs state) as [[|doc docs] |] eqn:Hd;
    [apply Hnone | | apply Hnone].
  destruct (template (assemble_context (doc :: docs)) (question state))
    as [prompt | e]; [| apply Hfail].
  destruct (generate env t prompt) as [generated | e]; [| apply Hfail].
  simpl fst.
  set (answer' := if include_sources
                  then generated ++ sources_suffix env (doc :: docs)
                  else generated).
  destruct (PyStr.truthy answer') eqn:Htruthy.
  - right. split.
    + apply decide_end_of_answer. exact Htruthy.
    + apply Answered; [exact Htruthy | exact He].
  - left. unfold running. state_simpl. rewrite Hd.
    split; [| reflexivity].
    split; [assumption |]. split; [lia |].
    split; [exact Htruthy |]. split; [assumption |]. discriminate.
Qed.

(** The rewrite node writes [retrieval_query] only. *)
Lemma rewrite_query_node_result (f : AgentState -> string) (t : trace)
    (state : AgentState) :
  exists q', rewrite_query_node f t state
             = (set_retrieval_query (Some q') state, t).
Proof.
  unfold rewrite_query_node.
  destruct (PyStr.contains "它" (question state)
            || PyStr.contains "他" (question state));
    eexists; reflexivity.
Qed.


Lemma running_ignores_query (budget : Z) (q' : option string)
    (state : AgentState) :
  running budget state -> running budget (set_retrieval_query q' state).
Proof. intros Hrun. exact Hrun. Qed.

(** A rewrite leaves the state running and the counter where it was. *)
Lemma rewrite_step (budget : Z) (f : AgentState -> string) (t : trace)
    (state : AgentState) :
  running budget state ->
  running budget (fst (rewrite_query_node f t state))
  /\ get_step_count (fst (rewrite_query_node f t state)) = get_step_count state
  /\ decide_node (fst (rewrite_query_node f t state)) = decide_node state.
Proof.
  intros Hrun. destruct (rewrite_query_node_result f t state) as [q' ->].
  simpl fst. split; [apply running_ignores_query; exact Hrun |].
  split; reflexivity.
Qed.

(** Whatever step is dispatched, the state is running again or the turn has
    ended in one of the four outcomes. *)
Lemma dispatch_keeps_invariant (budget : Z) (t : trace) (state : AgentState) :
  running budget state -> decide_node state <> End_ ->
  running budget (fst (step (decide_node state) t state))
  \/ (decide_node (fst (step (decide_node state) t state)) = End_
      /\ turn_outcome budget (fst (step (decide_node state) t state))).
Proof.
  intros Hrun Hd.
  pose proof (running_not_end budget state Hrun Hd) as Hlt.
  assert (Hweak : forall state',
             step_result budget state state' ->
             running budget state'
             \/ (decide_node state' = End_ /\ turn_outcome budget state')).
  { intros state' [[H _] | H]; [left | right]; exact H. }
  unfold dispatch.
  destruct (decide_node state); try congruence.
  - apply Hweak, retrieve_step; assumption.
  - destruct rewriter as [f |].
    + left. apply rewrite_step; assumption.
    + apply Hweak, generate_step; assumption.
  - apply Hweak, generate_step; assumption.
Qed.

(** Without the rewrite node every step that leaves the turn running has
    counted itself. *)
Lemma dispatch_step (budget : Z) (t : trace) (state : AgentState) :
  rewriter = None ->
  running budget state -> decide_node state <> End_ ->
  step_result budget state (fst (step (decide_node state) t state)).
Proof.
  intros Hnone Hrun Hd.
  pose proof (running_not_end budget state Hrun Hd) as Hlt.
  unfold dispatch.
  destruct (decide_node state); try congruence.
  - apply retrieve_step; assumption.
  - rewrite Hnone. apply generate_step; assumption.
  - apply generate_step; assumption.
Qed.

Lemma decision_is_end (d : decision) : {d = End_} + {d <> End_}.
Proof. destruct d; (left; reflexivity) || (right; discriminate). Qed.

(** Whenever the loop returns from a running state, [decide_node] has said
    ["end"] and the turn has ended in one of the four outcomes. *)
Lemma run_loop_outcome (budget : Z) (fuel : nat) :
  forall (state : AgentState) (t : trace) (n : nat) state' t' m,
    running budget state ->
    loop fuel t state n = Some (state', t', m) ->
    decide_node state' = End_ /\ turn_outcome budget state'.
Proof.
  assert (Hnow : forall fuel state t n state' t' m,
             running budget state -> decide_node state = End_ ->
             loop fuel t state n = Some (state', t', m) ->
             decide_node state' = End_ /\ turn_outcome budget state').
  { intros fuel' state t n state' t' m Hrun Hend Hloop.
    rewrite run_loop_at_end in Hloop by exact Hend.
    injection Hloop as <- _ _.
    pose proof (running_end budget state Hrun Hend) as Hn.
    destruct Hrun as (Hmax & Hcount & Ha & He & Hdocs).
    split; [exact Hend |]. apply BudgetExhausted; assumption. }
  induction fuel as [|fuel IH]; intros state t n state' t' m Hrun Hloop;
    destruct (decision_is_end (decide_node state)) as [Hend | Hne];
    try (apply (Hnow _ _ _ _ _ _ _ Hrun Hend Hloop)).
  - exfalso. revert Hloop. simpl.
    destruct (decide_node state); congruence || discriminate.
  - rewrite run_loop_step in Hloop by exact Hne.
    destruct (dispatch_keeps_invariant budget t state Hrun Hne)
      as [Hrun' | [Hend' Hout']].
    + apply (IH _ _ _ _ _ _ Hrun' Hloop).
    + rewrite run_loop_at_end in Hloop by exact Hend'.
      injection Hloop as <- _ _. split; assumption.
Qed.

(** Without the rewrite node the loop returns from a running state once the
    fuel covers what is left of the budget; it has then run no more steps
    than that, and the turn has ended in one of the four outcomes. *)
Lemma run_loop_ends (budget : Z) (b : nat) :
  rewriter = None ->
  forall (state : AgentState) (t : trace) (n : nat),
    running budget state ->
    (Z.to_nat (budget - get_step_count state) <= b)%nat ->
    exists state' t' m,
      (forall fuel,
          (Z.to_nat (budget - get_step_count state) <= fuel)%nat ->
          loop fuel t state n = Some (state', t', (n + m)%nat))
      /\ (Z.of_nat m <= budget - get_step_count state)%Z
      /\ decide_node state' = End_
      /\ turn_outcome budget state'.
Proof.
  intros Hnone.
  assert (Hnow : forall state t n,
             running budget state -> decide_node state = End_ ->
             exists state' t' m,
               (forall fuel,
                   (Z.to_nat (budget - get_step_count state) <= fuel)%nat ->
                   loop fuel t state n = Some (state', t', (n + m)%nat))
               /\ (Z.of_nat m <= budget - get_step_count state)%Z
               /\ decide_node state' = End_
               /\ turn_outcome budget state').
  { intros state t n Hrun Hend.
    pose proof (running_end budget state Hrun Hend) as Hn.
    destruct Hrun as (Hmax & Hcount & Ha & He & Hdocs).
    exists state, t, 0%nat. rewrite Nat.add_0_r.
    split; [intros fuel _; apply run_loop_at_end; exact Hend |].
    split; [lia |]. split; [exact Hend |].
    apply BudgetExhausted; assumption. }
  induction b as [|b IH]; intros state t n Hrun Hb;
    destruct (decision_is_end (decide_node state)) as [Hend | Hne];
    try (apply Hnow; assumption).
  - pose proof (running_not_end budget state Hrun Hne). lia.
  - pose proof (running_not_end budget state Hrun Hne) as Hlt.
    destruct (dispatch_step budget t state Hnone Hrun Hne)
      as [[Hrun' Hcount'] | [Hend' Hout']].
    + destruct (IH _ (snd (step (decide_node state) t state)) (S n) Hrun')
        as (state' & t' & m & Hfuel & Hm & Hend & Hout); [lia |].
      exists state', t', (S m).
      split; [| split; [lia | split; assumption]].
      intros fuel Hge. destruct fuel as [|fuel]; [lia |].
      rewrite run_loop_step by exact Hne.
      rewrite Hfuel by lia. f_equal. f_equal. lia.
    + exists (fst (step (decide_node state) t state)),
        (snd (step (decide_node state) t state)), 1%nat.
      split; [| split; [lia | split; assumption]].
      intros fuel Hge. destruct fuel as [|fuel]; [lia |].
      rewrite run_loop_step by exact Hne.
      rewrite run_loop_at_end by exact Hend'.
      f_equal. f_equal. lia.
Qed.

Lemma initial_state_running (q : string) (budget : Z) :
  (1 <= budget)%Z -> running budget (create_initial_state q budget).
Proof.
  intros Hb. unfold running. simpl.
  split; [reflexivity |]. split; [lia |].
  split; [reflexivity |]. split; [reflexivity |]. discriminate.
Qed.

End LoopFacts.




(** Without the rewrite node a turn started on a fresh state returns within
    its budget, in one of the four outcomes. *)
Lemma run_without_rewrite_ends
    (env : collaborators) (k : Z) (score_threshold : option Q)
    (template : prompt_template) (include_sources : bool)
    (q : string) (step_budget : Z) :
  (1 <= step_budget)%Z ->
  exists state' t' executed,
    (forall fuel,
        (Z.to_nat step_budget <= fuel)%nat ->
        run env k score_threshold template include_sources None fuel q step_budget
        = Some (state', t', executed))
    /\ (Z.of_nat executed <= step_budget)%Z
    /\ decide_node state' = End_
    /\ turn_outcome step_budget state'.
Proof.
  intros Hbudget.
  destruct (run_loop_ends env k score_threshold template include_sources None
              step_budget (Z.to_nat step_budget) eq_refl
              (create_initial_state q step_budget) [] 0%nat
              (initial_state_running q step_budget Hbudget))
    as (state' & t' & m & Hfuel & Hm & Hend & Hout).
  - simpl. rewrite Z.sub_0_r. lia.
  - exists state', t', m. simpl in Hfuel, Hm. rewrite Z.sub_0_r in Hfuel, Hm.
    split; [| split; [| split]]; [| assumption ..].
    intros fuel Hge. unfold run. apply Hfuel. exact Hge.
Qed.



(** The claim of C1 fails: when the language model raises, the turn ends with
    both the error and an answer, the fixed apology, in the final state. *)
Lemma failed_generation_sets_answer_and_error :
  let env := stub (Ok [plain_doc "d"]) (Raise "boom") ([], None) in
  exists state t,
    run env 1 None default_template false None 5 "q" 5 = Some (state, t, 2%nat)
    /\ state
       = fst (generate_node env default_template false [SimilaritySearch "q" 1]
                (fst (retrieve_node env 1 None [] (create_initial_state "q" 5))))
    /\ answer state = Some generate_failed_answer
    /\ error state = Some "生成失败: boom"
    /\ PyStr.opt_truthy (answer state) = true
    /\ PyStr.opt_truthy (error state) = true.
Proof.
  do 2 eexists. split; [vm_compute; reflexivity |].
  repeat split; reflexivity.
Qed.

(** C1, amended.  A turn started on a fresh state with a step budget of at
    least one, whenever it ends, ends in exactly one of four outcomes: the
    answer is set and the error is not; a retrieval failed, the error is set
    and the answer is not; the generation failed, the error is set together
    with the fixed apology as the answer; or neither is set and [step_count]
    equals the budget.  In the graph without the rewrite node the turn does
    end, within its budget.  A failed retrieve node leaves the answer as it
    was; a failed generate node sets both the error and the answer. *)
Theorem turn_ends_in_one_outcome
    (env : collaborators) (k : Z) (score_threshold : option Q)
    (template : prompt_template) (include_sources : bool)
    (rewriter : option (AgentState -> string)) (q : string) (step_budget : Z)
    (Hbudget : (1 <= step_budget)%Z) :
  (forall fuel state' t' executed,
     run env k score_threshold template include_sources rewriter
       fuel q step_budget
     = Some (state', t', executed) ->
     decide_node state' = End_
     /\ exactly_one_of (answered state') (retrieval_failed state')
          (generation_failed state') (budget_exhausted step_budget state'))
  /\ (exists state' t' executed,
        (forall fuel,
            (Z.to_nat step_budget <= fuel)%nat ->
            run env k score_threshold template include_sources None
              fuel q step_budget
            = Some (state', t', executed))
        /\ (Z.of_nat executed <= step_budget)%Z
        /\ exactly_one_of (answered state') (retrieval_failed state')
             (generation_failed state') (budget_exhausted step_budget state'))
  /\ (forall t state e,
        similarity_search env t (effective_query state) k = Raise e ->
        let state' := fst (retrieve_node env k score_threshold t state) in
        error state' = Some ("检索失败: " ++ e) /\ answer state' = answer state)
  /\ (forall t state doc docs prompt e,
        retrieved_docs state = Some (doc :: docs) ->
        template (assemble_context (doc :: docs)) (question state) = Ok prompt ->
        generate env t prompt = Raise e ->
        let state' := fst (generate_node env template include_sources t state) in
        error state' = Some ("生成失败: " ++ e)
        /\ answer state' = Some generate_failed_answer).
Proof.
  split; [| split; [| split]].
  - intros fuel state' t' executed Hrun. unfold run in Hrun.
    destruct (run_loop_outcome env k score_threshold template include_sources
                rewriter step_budget fuel _ _ _ _ _ _
                (initial_state_running q step_budget Hbudget) Hrun)
      as [Hend Hout].
    split; [exact Hend |]. apply turn_outcome_exactly_one. exact Hout.
  - destruct (run_without_rewrite_ends env k score_threshold template
                include_sources q step_budget Hbudget)
      as (state' & t' & executed & Hrun & Hle & _ & Hout).
    exists state', t', executed.
    split; [exact Hrun |]. split; [exact Hle |].
    apply turn_outcome_exactly_one. exact Hout.
  - intros t state e Hsearch. unfold retrieve_node. rewrite Hsearch.
    split; reflexivity.
  - intros t state doc docs prompt e Hdocs Hprompt Hgen.
    unfold generate_node. rewrite Hdocs, Hprompt, Hgen. split; reflexivity.
Qed.

Lemma turn_ends_in_one_outcome_example :
  let env := stub (Ok [plain_doc "d"]) (Raise "boom") ([], None) in
  (1 <= 5)%Z
  /\ exists state' t' executed,
       run env 1 None default_template false None 5 "q" 5
       = Some (state', t', executed)
       /\ (Z.of_nat executed <= 5)%Z
       /\ exactly_one_of (answered state') (retrieval_failed state')
            (generation_failed state') (budget_exhausted 5 state').
Proof.
  assert (Hbudget : (1 <= 5)%Z) by lia.
  split; [exact Hbudget |].
  destruct (turn_ends_in_one_outcome
              (stub (Ok [plain_doc "d"]) (Raise "boom") ([], None)) 1 None
              default_template false None "q" 5 Hbudget)
    as (_ & (state' & t' & executed & Hrun & Hle & Hone) & _).
  exists state', t', executed.
  split; [apply Hrun; apply Nat.le_refl | split; assumption].
Defined.

(** * Further properties of the nodes *)

(** ** What the decisions of [decide_node] presuppose *)

Lemma decide_node_running (state : AgentState) :
  decide_node state <> End_ ->
  (get_step_count state < get_max_steps state)%Z
  /\ PyStr.opt_truthy (answer state) = false
  /\ PyStr.opt_truthy (error state) = false.
Proof.
  unfold decide_node.
  destruct (get_step_count state >=? get_max_steps state)%Z eqn:Hge;
    [congruence |].
  destruct (PyStr.opt_truthy (answer state)); [congruence |].
  destruct (PyStr.opt_truthy (error state)); [congruence |].
  intros _. rewrite Z.geb_leb in Hge. apply Z.leb_gt in Hge. auto.
Qed.

Lemma decide_retrieve_without_docs (state : AgentState) :
  decide_node state = Retrieve -> retrieved_docs state = None.
Proof.
  unfold decide_node.
  destruct (get_step_count state >=? get_max_steps state)%Z; [discriminate |].
  destruct (PyStr.opt_truthy (answer state)); [discriminate |].
  destruct (PyStr.opt_truthy (error state)); [discriminate |].
  destruct (retrieved_docs state); [| reflexivity].
  destruct (get_need_more_context state && _); [discriminate |].
  destruct (docs_truthy state && _); discriminate.
Qed.

Lemma decide_generate_with_docs (state : AgentState) :
  decide_node state = Generate -> docs_truthy state = true.
Proof.
  unfold decide_node.
  destruct (get_step_count state >=? get_max_steps state)%Z; [discriminate |].
  destruct (PyStr.opt_truthy (answer state)); [discriminate |].
  destruct (PyStr.opt_truthy (error state)); [discriminate |].
  destruct (retrieved_docs state); [| discriminate].
  destruct (get_need_more_context state && _); [discriminate |].
  destruct (docs_truthy state); [reflexivity | discriminate].
Qed.

(** X1.  [decide_node] asks for a retrieval exactly when the budget is not
    used up, neither answer nor error is set and no documents were retrieved
    yet; it asks for generation only over a list of documents that is not
    empty, and for a rewrite only over documents that are present, flagged as
    insufficient and scored below 0.5. *)
Theorem decide_node_sound (state : AgentState) :
  (decide_node state = Retrieve <->
     (get_step_count state < get_max_steps state)%Z
     /\ PyStr.opt_truthy (answer state) = false
     /\ PyStr.opt_truthy (error state) = false
     /\ retrieved_docs state = None)
  /\ (decide_node state = Generate ->
        (get_step_count state < get_max_steps state)%Z
        /\ PyStr.opt_truthy (answer state) = false
        /\ PyStr.opt_truthy (error state) = false
        /\ docs_truthy state = true)
  /\ (decide_node state = RewriteQuery ->
        (get_step_count state < get_max_steps state)%Z
        /\ PyStr.opt_truthy (answer state) = false
        /\ PyStr.opt_truthy (error state) = false
        /\ retrieved_docs state <> None
        /\ get_need_more_context state = true
        /\ PyNum.ltb (get_retrieval_score 0%Q state) 0.5%Q = true).
Proof.
  split; [split |].
  - intros Hd.
    destruct (decide_node_running state) as (Hlt & Ha & He); [congruence |].
    repeat (split; [assumption |]).
    apply decide_retrieve_without_docs. exact Hd.
  - intros (Hlt & Ha & He & Hdocs). unfold decide_node.
    replace (get_step_count state >=? get_max_steps state)%Z with false
      by (symmetry; rewrite Z.geb_leb; apply Z.leb_gt; lia).
    rewrite Ha, He, Hdocs. reflexivity.
  - split; intros Hd;
      (destruct (decide_node_running state) as (Hlt & Ha & He); [congruence |]);
      repeat (split; [assumption |]);
      revert Hd; unfold decide_node;
      (destruct (get_step_count state >=? get_max_steps state)%Z; [discriminate |]);
      rewrite Ha, He; simpl;
      (destruct (retrieved_docs state) as [docs |] eqn:Hdocs; [| discriminate]).
    + destruct (get_need_more_context state && _); [discriminate |].
      rewrite andb_true_r. destruct (docs_truthy state); [reflexivity | discriminate].
    + destruct (get_need_more_context state) eqn:Hneed; simpl.
      * destruct (PyNum.ltb (get_retrieval_score 0 state) 0.5) eqn:Hlow.
        -- intros _. split; [discriminate |]. split; reflexivity.
        -- rewrite andb_true_r. destruct (docs_truthy state); discriminate.
      * rewrite andb_true_r. destruct (docs_truthy state); discriminate.
Qed.

(** ** Routing after a retrieval *)

(** X2.  Whatever the retrieve node did, [decide_node] does not ask for a
    retrieval again.  After a failed search it ends the turn.  After a search
    that kept no document, with budget left and neither answer nor error set,
    it asks for a rewrite of the query, not for generation. *)
Theorem decide_after_retrieve
    (vectorstore : collaborators) (k : Z) (score_threshold : option Q)
    (t : trace) (state : AgentState) :
  let state' := fst (retrieve_node vectorstore k score_threshold t state) in
  decide_node state' <> Retrieve
  /\ (forall e,
        similarity_search vectorstore t (effective_query state) k = Raise e ->
        decide_node state' = End_)
  /\ (forall found,
        similarity_search vectorstore t (effective_query state) k = Ok found ->
        filter_by_threshold score_threshold found = [] ->
        (get_step_count state + 1 < get_max_steps state)%Z ->
        PyStr.opt_truthy (answer state) = false ->
        PyStr.opt_truthy (error state) = false ->
        decide_node state' = RewriteQuery).
Proof.
  intros state'. split; [| split].
  - intros Hd. apply decide_retrieve_without_docs in Hd.
    subst state'. revert Hd. unfold retrieve_node.
    destruct (similarity_search vectorstore t (effective_query state) k);
      [destruct (compute_retrieval_score k _) |]; discriminate.
  - intros e Hsearch. subst state'. unfold retrieve_node. rewrite Hsearch.
    apply decide_end_of_error. reflexivity.
  - intros found Hsearch Hnil Hlt Ha He. subst state'.
    unfold retrieve_node. rewrite Hsearch, Hnil. simpl.
    unfold decide_node, compute_need_more_context. state_simpl.
    fold (get_max_steps state).
    replace (get_step_count state + 1 >=? get_max_steps state)%Z with false
      by (symmetry; rewrite Z.geb_leb; apply Z.leb_gt; lia).
    rewrite Ha, He. reflexivity.
Qed.

(** ** Bounds on the scores *)

Lemma ltb_false_le (x y : Q) : PyNum.ltb x y = false -> (y <= x)%Q.
Proof.
  unfold PyNum.ltb. intros H. apply negb_false_iff in H.
  apply Qle_bool_iff. exact H.
Qed.

Lemma ltb_true_lt (x y : Q) : PyNum.ltb x y = true -> (x < y)%Q.
Proof.
  unfold PyNum.ltb. intros H. apply negb_true_iff in H.
  apply Qnot_le_lt. intros Hle. apply Qle_bool_iff in Hle. congruence.
Qed.

Lemma min_one_bounds (a : Q) : (0 <= a)%Q -> (0 <= PyNum.min a 1.0 <= 1)%Q.
Proof.
  intros Ha. unfold PyNum.min. destruct (PyNum.ltb 1.0 a) eqn:Hlt.
  - split; [discriminate |]. unfold Qle. simpl. lia.
  - apply ltb_false_le in Hlt. split; [exact Ha |].
    apply Qle_trans with (1.0)%Q; [exact Hlt |]. unfold Qle. simpl. lia.
Qed.

Lemma of_len_nonneg (n : nat) : (0 <= PyNum.of_len n)%Q.
Proof. unfold PyNum.of_len, Qle. simpl. lia. Qed.

Lemma of_len_S (n : nat) : (PyNum.of_len (S n) == PyNum.of_len n + 1)%Q.
Proof.
  unfold PyNum.of_len. rewrite Nat2Z.inj_succ, <- Z.add_1_r, inject_Z_plus.
  reflexivity.
Qed.

(** A sum of numbers between 0 and 1 lies between 0 and their number. *)
Lemma sum_bounds (xs : list Q) :
  Forall (fun x => 0 <= x <= 1)%Q xs ->
  forall a : Q,
    (a <= fold_left Qplus xs a <= a + PyNum.of_len (List.length xs))%Q.
Proof.
  induction 1 as [|x xs [Hx0 Hx1] _ IH]; intros a; simpl.
  - change (PyNum.of_len 0) with 0%Q. lra.
  - destruct (IH (a + x)%Q) as [Hlo Hhi].
    pose proof (of_len_S (List.length xs)) as HS. lra.
Qed.

Lemma div_len_bounds (s : Q) (n : nat) :
  (0 < n)%nat -> (0 <= s <= PyNum.of_len n)%Q -> (0 <= s / PyNum.of_len n <= 1)%Q.
Proof.
  intros Hn [Hs0 Hs1].
  assert (Hpos : (0 < PyNum.of_len n)%Q).
  { unfold PyNum.of_len, Qlt. simpl. lia. }
  split.
  - apply Qle_shift_div_l; [exact Hpos |]. rewrite Qmult_0_l. exact Hs0.
  - apply Qle_shift_div_r; [exact Hpos |]. rewrite Qmult_1_l. exact Hs1.
Qed.

Lemma score_or_zero_bounds (docs : list Document) :
  scores_in_unit_interval docs ->
  Forall (fun x => 0 <= x <= 1)%Q (map (score_or 0%Q) docs).
Proof.
  induction 1 as [|doc docs Hdoc _ IH]; simpl; constructor; [| exact IH].
  unfold score_or. destruct (score (metadata doc)) as [x |]; [auto | lra].
Qed.

Lemma compute_retrieval_score_bounds (k : Z) (docs : list Document) (r : Q) :
  (0 < k)%Z -> scores_in_unit_interval docs ->
  compute_retrieval_score k docs = Ok r -> (0 <= r <= 1)%Q.
Proof.
  intros Hk Hscores. unfold compute_retrieval_score. cbv zeta.
  destruct docs as [|first rest]; [intros [= <-]; lra |].
  destruct (score (metadata first)) as [x |].
  - intros [= <-]. apply div_len_bounds; [simpl; lia |].
    pose proof (sum_bounds _ (score_or_zero_bounds _ Hscores) 0%Q) as Hsum.
    unfold PyNum.sum. revert Hsum. simpl. intros Hsum. lra.
  - destruct (k =? 0)%Z; [discriminate |]. intros [= <-].
    apply min_one_bounds. apply Qle_shift_div_l.
    + unfold Qlt. simpl. lia.
    + rewrite Qmult_0_l. apply of_len_nonneg.
Qed.

Lemma filter_keeps_scores (score_threshold : option Q) (found : list Document) :
  scores_in_unit_interval found ->
  scores_in_unit_interval (filter_by_threshold score_threshold found).
Proof.
  unfold filter_by_threshold, scores_in_unit_interval.
  destruct score_threshold as [th |]; [| auto].
  intros H. apply Forall_forall. intros doc Hin.
  apply filter_In in Hin. destruct Hin as [Hin _].
  rewrite Forall_forall in H. apply H. exact Hin.
Qed.

(** X3.  With a positive [k] and a store whose scores lie between 0 and 1,
    the retrieval score the retrieve node stores lies between 0 and 1,
    whether the search succeeded, found nothing or failed. *)
Theorem retrieval_score_in_unit_interval
    (vectorstore : collaborators) (k : Z) (score_threshold : option Q)
    (t : trace) (state : AgentState)
    (Hk : (0 < k)%Z)
    (Hscores : forall found,
        similarity_search vectorstore t (effective_query state) k = Ok found ->
        scores_in_unit_interval found) :
  exists r,
    retrieval_score (fst (retrieve_node vectorstore k score_threshold t state)) = Some r
    /\ (0 <= r <= 1)%Q.
Proof.
  unfold retrieve_node.
  destruct (similarity_search vectorstore t (effective_query state) k)
    as [found | e] eqn:Hsearch.
  - destruct (compute_retrieval_score k (filter_by_threshold score_threshold found))
      as [r | e] eqn:Hscore.
    + exists r. split; [reflexivity |].
      apply (compute_retrieval_score_bounds k _ r Hk
               (filter_keeps_scores score_threshold found (Hscores found eq_refl))
               Hscore).
    + exists 0.0%Q. split; [reflexivity | lra].
  - exists 0.0%Q. split; [reflexivity | lra].
Qed.

Lemma retrieval_score_in_unit_interval_example :
  let found := [scored_doc "a" 0.9%Q; scored_doc "b" 0.3%Q; plain_doc "c"] in
  let store := stub (Ok found) (Ok "a") ([], None) in
  (0 < 4)%Z
  /\ scores_in_unit_interval found
  /\ exists r,
       retrieval_score
         (fst (retrieve_node store 4 (Some 0.5%Q) [] (create_initial_state "q" 5)))
       = Some r
       /\ (0 <= r <= 1)%Q.
Proof.
  assert (Hk : (0 < 4)%Z) by lia.
  assert (Hfound : scores_in_unit_interval
                     [scored_doc "a" 0.9%Q; scored_doc "b" 0.3%Q; plain_doc "c"]).
  { unfold scores_in_unit_interval.
    constructor; [| constructor; [| constructor; [| constructor]]];
      simpl; intros x Hx; try discriminate Hx; injection Hx as <-; lra. }
  split; [exact Hk |]. split; [exact Hfound |].
  apply (retrieval_score_in_unit_interval
           (stub (Ok [scored_doc "a" 0.9%Q; scored_doc "b" 0.3%Q; plain_doc "c"])
                 (Ok "a") ([], None))
           4 (Some 0.5%Q) [] (create_initial_state "q" 5) Hk).
  intros found [= <-]. exact Hfound.
Defined.

(** [min(n / 100, 1.0)] is [n / 100] up to a hundred and [1.0] from there. *)
Lemma length_score_cases (n : nat) :
  ((n <= 100)%nat ->
   (PyNum.min (PyNum.of_len n / 100) 1.0 == PyNum.of_len n / 100)%Q)
  /\ ((100 <= n)%nat -> (PyNum.min (PyNum.of_len n / 100) 1.0 == 1)%Q).
Proof.
  assert (Hdiv : (PyNum.of_len n / 100 == PyNum.of_len n * (1 # 100))%Q)
    by reflexivity.
  unfold PyNum.min, PyNum.ltb.
  destruct (Qle_bool (PyNum.of_len n / 100) 1.0) eqn:Hle; simpl.
  - apply Qle_bool_iff in Hle. split; [intros _; reflexivity |].
    intros Hn.
    assert (Hge : (100 <= PyNum.of_len n)%Q).
    { unfold PyNum.of_len. change (100%Q) with (inject_Z 100).
      rewrite <- Zle_Qle. lia. }
    lra.
  - assert (Hgt : ~ (PyNum.of_len n / 100 <= 1.0)%Q).
    { intros H. apply Qle_bool_iff in H. congruence. }
    split; [| intros _; reflexivity].
    intros Hn. exfalso. apply Hgt.
    assert (Hle' : (PyNum.of_len n <= 100)%Q).
    { unfold PyNum.of_len. change (100%Q) with (inject_Z 100).
      rewrite <- Zle_Qle. lia. }
    lra.
Qed.

(** X4.  The confidence score the generate node leaves is 0.0 when there are
    no documents, and 0.0 when the template or the language model raises;
    after a generation it is [retrieval_score * 0.6 + min(len(answer) / 100,
    1.0) * 0.4], where [answer] is the stored answer, sources included, and
    the retrieval score defaults to 0.5 when the state has none; so an answer
    of a hundred characters or more adds 0.4 and a shorter one
    [len(answer) / 100 * 0.4].  When the retrieval score of the state, if
    there is one, lies between 0 and 1, so does the confidence score. *)
Theorem confidence_in_unit_interval
    (llm : collaborators) (template : prompt_template) (include_sources : bool)
    (t : trace) (state : AgentState)
    (Hscore : forall r, retrieval_score state = Some r -> (0 <= r <= 1)%Q) :
  let state' := fst (generate_node llm template include_sources t state) in
  (exists c, confidence_score state' = Some c /\ (0 <= c <= 1)%Q)
  /\ (retrieved_docs state = None \/ retrieved_docs state = Some [] ->
      confidence_score state' = Some 0.0%Q)
  /\ (forall doc docs e,
        retrieved_docs state = Some (doc :: docs) ->
        template (assemble_context (doc :: docs)) (question state) = Raise e ->
        confidence_score state' = Some 0.0%Q)
  /\ (forall doc docs prompt e,
        retrieved_docs state = Some (doc :: docs) ->
        template (assemble_context (doc :: docs)) (question state) = Ok prompt ->
        generate llm t prompt = Raise e ->
        confidence_score state' = Some 0.0%Q)
  /\ (forall doc docs prompt generated,
        retrieved_docs state = Some (doc :: docs) ->
        template (assemble_context (doc :: docs)) (question state) = Ok prompt ->
        generate llm t prompt = Ok generated ->
        let answer' :=
          if include_sources
          then generated ++ sources_suffix llm (doc :: docs)
          else generated in
        let retrieval_score :=
          match retrieval_score state with
          | Some r => r
          | None => 0.5%Q
          end in
        let length := PyNum.of_len (PyStr.len answer') in
        answer state' = Some answer'
        /\ confidence_score state'
           = Some (retrieval_score * 0.6 + PyNum.min (length / 100) 1.0 * 0.4)%Q
        /\ exists c,
             confidence_score state' = Some c
             /\ ((PyStr.len answer' <= 100)%nat ->
                 (c == retrieval_score * 0.6 + length / 100 * 0.4)%Q)
             /\ ((100 <= PyStr.len answer')%nat ->
                 (c == retrieval_score * 0.6 + 0.4)%Q)).
Proof.
  cbv zeta.
  split; [| split; [| split; [| split]]].
  - assert (Hzero : (0 <= 0.0 <= 1)%Q) by lra.
    unfold generate_node.
    destruct (retrieved_docs state) as [[|doc docs] |];
      try (exists 0.0%Q; split; [reflexivity | exact Hzero]).
    destruct (template (assemble_context (doc :: docs)) (question state))
      as [prompt | e]; [| exists 0.0%Q; split; [reflexivity | exact Hzero]].
    destruct (generate llm t prompt) as [generated | e];
      [| exists 0.0%Q; split; [reflexivity | exact Hzero]].
    eexists. split; [reflexivity |].
    unfold compute_confidence.
    set (a := if include_sources then _ else generated).
    assert (Hlen : (0 <= PyNum.min (PyNum.of_len (PyStr.len a) / 100) 1.0 <= 1)%Q).
    { apply min_one_bounds. apply Qle_shift_div_l; [reflexivity |].
      rewrite Qmult_0_l. apply of_len_nonneg. }
    assert (Hr : (0 <= get_retrieval_score 0.5 state <= 1)%Q).
    { unfold get_retrieval_score.
      destruct (retrieval_score state) as [r |]; [auto | lra]. }
    lra.
  - unfold generate_node. intros [-> | ->]; reflexivity.
  - intros doc docs e Hdocs Hprompt.
    unfold generate_node. rewrite Hdocs, Hprompt. reflexivity.
  - intros doc docs prompt e Hdocs Hprompt Hgen.
    unfold generate_node. rewrite Hdocs, Hprompt, Hgen. reflexivity.
  - intros doc docs prompt generated Hdocs Hprompt Hgen.
    unfold generate_node. rewrite Hdocs, Hprompt, Hgen. simpl fst.
    set (a := if include_sources then _ else generated).
    split; [reflexivity |]. split; [reflexivity |].
    eexists. split; [reflexivity |].
    unfold compute_confidence, get_retrieval_score.
    destruct (length_score_cases (PyStr.len a)) as [Hshort Hlong].
    split; intros Hlen.
    + rewrite (Hshort Hlen). reflexivity.
    + rewrite (Hlong Hlen). reflexivity.
Qed.

Lemma confidence_in_unit_interval_example :
  let llm := stub (Ok []) (Ok "an answer") ([], None) in
  let state :=
    set_retrieval_score (Some 0.9%Q)
      (set_retrieved_docs (Some [plain_doc "d"]) (create_initial_state "q" 5)) in
  let state' := fst (generate_node llm default_template false [] state) in
  (forall r, retrieval_score state = Some r -> (0 <= r <= 1)%Q)
  /\ (exists c, confidence_score state' = Some c /\ (0 <= c <= 1)%Q)
  /\ answer state' = Some "an answer"
  /\ confidence_score state'
     = Some (0.9 * 0.6 + PyNum.min (PyNum.of_len 9 / 100) 1.0 * 0.4)%Q.
Proof.
  assert (H : forall r, Some 0.9%Q = Some r -> (0 <= r <= 1)%Q).
  { intros r [= <-]. lra. }
  split; [exact H |].
  destruct (confidence_in_unit_interval
              (stub (Ok []) (Ok "an answer") ([], None)) default_template false []
              (set_retrieval_score (Some 0.9%Q)
                 (set_retrieved_docs (Some [plain_doc "d"])
                    (create_initial_state "q" 5)))
              H)
    as (Hbound & _ & _ & _ & Hvalue).
  split; [exact Hbound |].
  destruct (Hvalue (plain_doc "d") [] _ "an answer" eq_refl eq_refl eq_refl)
    as (Hanswer & Hc & _).
  split; [exact Hanswer | exact Hc].
Defined.

(** ** What a step counts and what it leaves alone *)

(** X5.  The retrieve node and the generate node count a step only when they
    succeed: after a success [step_count] is one more, after a failure it is
    what it was, so it never decreases.  Neither node changes the question or
    the budget; the retrieve node leaves the answer alone and the generate
    node the retrieved documents and their score. *)
Theorem nodes_count_successes_only
    (env : collaborators) (k : Z) (score_threshold : option Q)
    (template : prompt_template) (include_sources : bool)
    (t : trace) (state : AgentState) :
  (let state' := fst (retrieve_node env k score_threshold t state) in
   ((error state' = error state
     /\ get_step_count state' = (get_step_count state + 1)%Z)
    \/ ((exists e, error state' = Some ("检索失败: " ++ e))
        /\ get_step_count state' = get_step_count state))
   /\ question state' = question state
   /\ max_steps state' = max_steps state
   /\ answer state' = answer state)
  /\ (let state' := fst (generate_node env template include_sources t state) in
      ((error state' = error state
        /\ get_step_count state' = (get_step_count state + 1)%Z)
       \/ ((exists e, error state' = Some ("生成失败: " ++ e))
           /\ get_step_count state' = get_step_count state))
      /\ question state' = question state
      /\ max_steps state' = max_steps state
      /\ retrieved_docs state' = retrieved_docs state
      /\ retrieval_score state' = retrieval_score state).
Proof.
  split.
  - unfold retrieve_node.
    destruct (similarity_search env t (effective_query state) k) as [found | e].
    + destruct (compute_retrieval_score k (filter_by_threshold score_threshold found))
        as [r | e]; state_simpl.
      * split; [left; split; reflexivity |]. auto.
      * unfold retrieve_failed. state_simpl.
        split; [right; split; [exists e |]; reflexivity |]. auto.
    + unfold retrieve_failed. state_simpl.
      split; [right; split; [exists e |]; reflexivity |]. auto.
  - unfold generate_node.
    destruct (retrieved_docs state) as [[|doc docs] |] eqn:Hdocs;
      try (unfold generate_no_docs; state_simpl; rewrite Hdocs;
           split; [left; split; reflexivity |]; auto).
    destruct (template (assemble_context (doc :: docs)) (question state))
      as [prompt | e].
    + destruct (generate env t prompt) as [generated | e].
      * state_simpl. rewrite Hdocs. split; [left; split; reflexivity |]. auto.
      * unfold generate_failed. state_simpl. rewrite Hdocs.
        split; [right; split; [exists e |]; reflexivity |]. auto.
    + unfold generate_failed. state_simpl. rewrite Hdocs.
      split; [right; split; [exists e |]; reflexivity |]. auto.
Qed.

(** ** The calls of the generate node *)

Lemma search_calls_snoc_generate (t : trace) (prompt : string) :
  search_calls (t ++ [LlmGenerate prompt])%list = search_calls t.
Proof.
  unfold search_calls. rewrite filter_app, length_app. simpl. lia.
Qed.

Lemma llm_calls_snoc_generate (t : trace) (prompt : string) :
  llm_calls (t ++ [LlmGenerate prompt])%list = S (llm_calls t).
Proof.
  unfold llm_calls. rewrite filter_app, length_app. simpl. lia.
Qed.

(** X6.  The generate node never searches the store.  It calls the language
    model once, with the filled template, when the state holds documents and
    the template can be filled, and otherwise not at all; the calls made
    before are kept in the trace. *)
Theorem generate_node_calls
    (llm : collaborators) (template : prompt_template) (include_sources : bool)
    (t : trace) (state : AgentState) :
  let t' := snd (generate_node llm template include_sources t state) in
  search_calls t' = search_calls t
  /\ (forall doc docs prompt,
        retrieved_docs state = Some (doc :: docs) ->
        template (assemble_context (doc :: docs)) (question state) = Ok prompt ->
        t' = (t ++ [LlmGenerate prompt])%list /\ llm_calls t' = S (llm_calls t))
  /\ (forall doc docs e,
        retrieved_docs state = Some (doc :: docs) ->
        template (assemble_context (doc :: docs)) (question state) = Raise e ->
        t' = t)
  /\ (docs_truthy state = false -> t' = t).
Proof.
  unfold generate_node, docs_truthy.
  destruct (retrieved_docs state) as [[|doc docs] |]; simpl;
    try (split; [reflexivity |]; split; [discriminate |];
         split; [discriminate | reflexivity]).
  destruct (template (assemble_context (doc :: docs)) (question state))
    as [prompt | e] eqn:Hprompt.
  - destruct (generate llm t prompt) as [generated | e]; simpl;
      (split; [apply search_calls_snoc_generate |]);
      (split; [intros doc' docs' prompt' [= <- <-] Hp; rewrite Hprompt in Hp;
               injection Hp as <-;
               split; [reflexivity | apply llm_calls_snoc_generate] |]);
      (split; [intros doc' docs' e' [= <- <-] Hp; congruence | discriminate]).
  - simpl. split; [reflexivity |].
    split; [intros doc' docs' prompt' [= <- <-] Hp; congruence |].
    split; [reflexivity | discriminate].
Qed.

(** ** An empty answer is no answer *)

(** X7.  After a generation that [decide_node] asked for, a text that Python
    counts as true ends the turn.  An empty text without sources does not:
    with budget left, [decide_node] asks for generation again. *)
Theorem decide_after_generate
    (llm : collaborators) (template : prompt_template) (include_sources : bool)
    (t : trace) (state : AgentState) (docs : list Document)
    (prompt generated : string)
    (Hdecide : decide_node state = Generate)
    (Hdocs : retrieved_docs state = Some docs)
    (Hprompt : template (assemble_context docs) (question state) = Ok prompt)
    (Hgenerate : generate llm t prompt = Ok generated) :
  let state' := fst (generate_node llm template include_sources t state) in
  (PyStr.opt_truthy (answer state') = true -> decide_node state' = End_)
  /\ (PyStr.truthy generated = true -> decide_node state' = End_)
  /\ (generated = "" -> include_sources = false ->
      (get_step_count state + 1 < get_max_steps state)%Z ->
      answer state' = Some "" /\ decide_node state' = Generate).
Proof.
  intros state'.
  assert (Hstate' : state'
                    = set_step_count (Some (get_step_count state + 1)%Z)
                        (set_current_node (Some "generate")
                           (set_confidence_score
                              (Some (compute_confidence state
                                       (if include_sources
                                        then generated ++ sources_suffix llm docs
                                        else generated)))
                              (set_answer
                                 (Some (if include_sources
                                        then generated ++ sources_suffix llm docs
                                        else generated)) state)))).
  { subst state'. unfold generate_node. rewrite Hdocs.
    destruct docs as [|doc docs].
    - apply decide_generate_with_docs in Hdecide.
      unfold docs_truthy in Hdecide. rewrite Hdocs in Hdecide. discriminate.
    - rewrite Hprompt, Hgenerate. reflexivity. }
  split; [intros Ha; apply decide_end_of_answer; exact Ha |]. split.
  - intros Htruthy. apply decide_end_of_answer. rewrite Hstate'. state_simpl.
    destruct include_sources; [| exact Htruthy].
    destruct generated; [discriminate | reflexivity].
  - intros -> -> Hlt. rewrite Hstate'. split; [reflexivity |].
    revert Hdecide. unfold decide_node, docs_truthy. state_simpl.
    fold (get_max_steps state).
    replace (get_step_count state + 1 >=? get_max_steps state)%Z with false
      by (symmetry; rewrite Z.geb_leb; apply Z.leb_gt; lia).
    destruct (get_step_count state >=? get_max_steps state)%Z; [discriminate |].
    destruct (PyStr.opt_truthy (answer state)); [discriminate |].
    simpl. auto.
Qed.

Lemma decide_after_generate_example :
  let llm := stub (Ok []) (Ok "") ([], None) in
  let docs := [scored_doc "d" 0.9%Q] in
  let state :=
    set_need_more_context (Some false)
      (set_retrieval_score (Some 0.9%Q)
         (set_retrieved_docs (Some docs) (create_initial_state "q" 5))) in
  decide_node state = Generate
  /\ (let state' := fst (generate_node llm default_template false [] state) in
      answer state' = Some "" /\ decide_node state' = Generate).
Proof.
  split; [reflexivity |].
  destruct (default_template (assemble_context [scored_doc "d" 0.9%Q]) "q")
    as [prompt | e] eqn:Hprompt; [| discriminate Hprompt].
  assert (Hlt : (0 + 1 < 5)%Z) by lia.
  destruct (decide_after_generate
              (stub (Ok []) (Ok "") ([], None)) default_template false []
              (set_need_more_context (Some false)
                 (set_retrieval_score (Some 0.9%Q)
                    (set_retrieved_docs (Some [scored_doc "d" 0.9%Q])
                       (create_initial_state "q" 5))))
              [scored_doc "d" 0.9%Q] prompt "" eq_refl eq_refl Hprompt eq_refl)
    as (_ & _ & Hagain).
  apply Hagain; [reflexivity | reflexivity | exact Hlt].
Defined.

(** * Further properties of the conversational chain *)

(** ** The formatted history *)

Lemma string_append_assoc (a b c : string) : (a ++ b) ++ c = a ++ (b ++ c).
Proof.
  induction a as [|ch a IH]; simpl; [reflexivity |]. rewrite IH. reflexivity.
Qed.

Lemma join_snoc (sep last : string) (parts : list string) :
  parts <> [] ->
  PyStr.join sep (parts ++ [last]) = PyStr.join sep parts ++ sep ++ last.
Proof.
  induction parts as [|p parts IH]; [congruence |]. intros _.
  destruct parts as [|p' parts].
  - reflexivity.
  - change (PyStr.join sep ((p :: p' :: parts) ++ [last]))
      with (p ++ sep ++ PyStr.join sep ((p' :: parts) ++ [last])).
    rewrite IH by discriminate.
    change (PyStr.join sep (p :: p' :: parts))
      with (p ++ sep ++ PyStr.join sep (p' :: parts)).
    rewrite !string_append_assoc. reflexivity.
Qed.

Lemma join_snoc2 (sep u v : string) (parts : list string) :
  parts <> [] ->
  PyStr.join sep (parts ++ [u; v]) = PyStr.join sep parts ++ sep ++ u ++ sep ++ v.
Proof.
  intros Hne.
  change (parts ++ [u; v])%list with (parts ++ ([u] ++ [v]))%list.
  rewrite app_assoc. rewrite join_snoc.
  - rewrite join_snoc by exact Hne. rewrite !string_append_assoc. reflexivity.
  - intros H. apply app_eq_nil in H. destruct H; discriminate.
Qed.

Lemma format_history_some (h : list (string * string)) (cap : Z) :
  h <> [] ->
  _format_history (mkChain h cap)
  = PyStr.join PyStr.nl
      (flat_map (fun qa => ["用户: " ++ fst qa; "助手: " ++ snd qa]) h).
Proof.
  destruct h; [congruence | reflexivity].
Qed.

Lemma format_history_append (h : list (string * string)) (cap : Z) (q a : string) :
  _format_history (mkChain (h ++ [(q, a)]) cap)
  = match h with
    | [] => "用户: " ++ q ++ PyStr.nl ++ "助手: " ++ a
    | _ :: _ =>
        _format_history (mkChain h cap)
        ++ PyStr.nl ++ "用户: " ++ q ++ PyStr.nl ++ "助手: " ++ a
    end.
Proof.
  destruct h as [|turn h]; [reflexivity |].
  rewrite !format_history_some by (try discriminate; destruct h; discriminate).
  rewrite flat_map_app.
  change (flat_map (fun qa => ["用户: " ++ fst qa; "助手: " ++ snd qa]) [(q, a)])
    with ["用户: " ++ q; "助手: " ++ a].
  rewrite join_snoc2 by (simpl; discriminate).
  rewrite !string_append_assoc. reflexivity.
Qed.

(** X8.  The formatted history grows by appending.  The first turn replaces
    the placeholder by its two lines, the user's and the assistant's; every
    later turn adds its two lines after a line break to what was there. *)
Theorem format_history_snoc (h : list (string * string)) (cap : Z) (q a : string) :
  _format_history (mkChain (h ++ [(q, a)]) cap)
  = match h with
    | [] => "用户: " ++ q ++ PyStr.nl ++ "助手: " ++ a
    | _ :: _ =>
        _format_history (mkChain h cap)
        ++ PyStr.nl ++ "用户: " ++ q ++ PyStr.nl ++ "助手: " ++ a
    end.
Proof.
  apply format_history_append.
Qed.

(** ** Failures leave the history alone *)

Section StreamFailure.

Variable env : collaborators.
Variable template : conversational_template.
Variables (q : string) (k : Z) (self : ConversationalRAGChain).

(** With documents found and the prompt built, the first resumption is the
    first turn of the loop, whether the stream of the model will fail or not. *)
Lemma first_next_enters_loop_any (t : trace) (docs : list Document) (prompt : string) :
  similarity_search env t q k = Ok docs -> docs <> [] ->
  template (_format_history self) (chain_context docs) q = Ok prompt ->
  stream_query_next env template q k NotStarted self t
  = stream_query_next env template q k
      (AtChunkYield []
         (fst (stream_generate env (t ++ [SimilaritySearch q k])%list prompt))
         (snd (stream_generate env (t ++ [SimilaritySearch q k])%list prompt)))
      self ((t ++ [SimilaritySearch q k]) ++ [LlmStreamGenerate prompt])%list.
Proof.
  intros Hdocs Hne Hprompt. unfold stream_query_next.
  rewrite Hdocs. destruct docs as [|doc docs]; [congruence |].
  rewrite Hprompt. reflexivity.
Qed.

(** Inside the loop over the increments, a drain that ends in an exception
    has received every increment that came before it and saved nothing. *)
Lemma drain_in_loop_failure (t : trace) (failure : option exn) (fuel : nat)
    (got : list string) (e' : exn) (self_s : ConversationalRAGChain) (t_s : trace) :
  forall pending answer_parts received,
    stream_query_drain env template fuel q k
      (AtChunkYield answer_parts pending failure) self t received
    = Some (got, Some e', self_s, t_s) ->
    self_s = self
    /\ got = (received ++ pending)%list
    /\ exists e, failure = Some e /\ e' = stream_query_error e.
Proof.
  induction fuel as [|fuel IH]; intros pending answer_parts received;
    [discriminate |].
  destruct pending as [|chunk rest]; simpl.
  - destruct failure as [e |]; intros [= <- <- <- <-].
    rewrite app_nil_r. eauto.
  - intros H. apply IH in H. destruct H as (Hself & Hgot & He).
    rewrite <- app_assoc in Hgot. auto.
Qed.

(** A stream that fails after its increments: they are all received, the
    exception is wrapped and nothing is saved. *)
Lemma drain_in_loop_raises (t : trace) (e : exn) :
  forall pending answer_parts received,
    stream_query_drain env template (S (List.length pending)) q k
      (AtChunkYield answer_parts pending (Some e)) self t received
    = Some ((received ++ pending)%list, Some (stream_query_error e), self, t).
Proof.
  induction pending as [|chunk rest IH]; intros answer_parts received.
  - simpl. rewrite app_nil_r. reflexivity.
  - change (List.length (chunk :: rest)) with (S (List.length rest)).
    remember (S (List.length rest)) as n eqn:Hn.
    simpl. subst n. rewrite IH. rewrite <- app_assoc. reflexivity.
Qed.

End StreamFailure.

(** X9.  A query that raises leaves the chat history as it was, and what it
    raises is the fixed prefix of the method followed by the text of the
    exception that caused it.  The blocking query raises
    ["对话 RAG 查询失败: " ++ e] when the search, the template or the language
    model raises [e], and in no other case.  The streaming query, drained,
    ends in ["流式对话 RAG 查询失败: " ++ e] when the search or the template
    raises [e], before any increment, or when the stream of the language
    model fails with [e], after the increments that came before the failure
    have been yielded, and in no other case.  The turn is never saved. *)
Theorem failed_query_keeps_history
    (env : collaborators) (template : conversational_template)
    (t : trace) (self : ConversationalRAGChain) (q : string) (k : Z) :
  let t1 := (t ++ [SimilaritySearch q k])%list in
  (forall e,
      similarity_search env t q k = Raise e ->
      query env template t self q k
      = (Raise ("对话 RAG 查询失败: " ++ e), self, t1))
  /\ (forall doc docs e,
        similarity_search env t q k = Ok (doc :: docs) ->
        template (_format_history self) (chain_context (doc :: docs)) q = Raise e ->
        query env template t self q k
        = (Raise ("对话 RAG 查询失败: " ++ e), self, t1))
  /\ (forall doc docs prompt e,
        similarity_search env t q k = Ok (doc :: docs) ->
        template (_format_history self) (chain_context (doc :: docs)) q = Ok prompt ->
        generate env t1 prompt = Raise e ->
        query env template t self q k
        = (Raise ("对话 RAG 查询失败: " ++ e), self,
           (t1 ++ [LlmGenerate prompt])%list))
  /\ (forall e' self' t',
        query env template t self q k = (Raise e', self', t') ->
        self' = self
        /\ exists e,
             e' = "对话 RAG 查询失败: " ++ e
             /\ (similarity_search env t q k = Raise e
                 \/ exists doc docs,
                      similarity_search env t q k = Ok (doc :: docs)
                      /\ (template (_format_history self)
                            (chain_context (doc :: docs)) q = Raise e
                          \/ exists prompt,
                               template (_format_history self)
                                 (chain_context (doc :: docs)) q = Ok prompt
                               /\ generate env t1 prompt = Raise e)))
  /\ (forall e,
        similarity_search env t q k = Raise e ->
        stream_query_drain env template 1 q k NotStarted self t []
        = Some ([], Some ("流式对话 RAG 查询失败: " ++ e), self, t1))
  /\ (forall doc docs e,
        similarity_search env t q k = Ok (doc :: docs) ->
        template (_format_history self) (chain_context (doc :: docs)) q = Raise e ->
        stream_query_drain env template 1 q k NotStarted self t []
        = Some ([], Some ("流式对话 RAG 查询失败: " ++ e), self, t1))
  /\ (forall doc docs prompt chunks e,
        similarity_search env t q k = Ok (doc :: docs) ->
        template (_format_history self) (chain_context (doc :: docs)) q = Ok prompt ->
        stream_generate env t1 prompt = (chunks, Some e) ->
        stream_query_drain env template (S (List.length chunks)) q k
          NotStarted self t []
        = Some (chunks, Some ("流式对话 RAG 查询失败: " ++ e), self,
                (t1 ++ [LlmStreamGenerate prompt])%list))
  /\ (forall fuel received e' self' t',
        stream_query_drain env template fuel q k NotStarted self t []
        = Some (received, Some e', self', t') ->
        self' = self
        /\ exists e,
             e' = "流式对话 RAG 查询失败: " ++ e
             /\ ((similarity_search env t q k = Raise e /\ received = [])
                 \/ exists doc docs,
                      similarity_search env t q k = Ok (doc :: docs)
                      /\ ((template (_format_history self)
                             (chain_context (doc :: docs)) q = Raise e
                           /\ received = [])
                          \/ exists prompt,
                               template (_format_history self)
                                 (chain_context (doc :: docs)) q = Ok prompt
                               /\ stream_generate env t1 prompt
                                  = (received, Some e)))).
Proof.
  cbv zeta.
  split; [| split; [| split; [| split; [| split; [| split; [| split]]]]]].
  - intros e Hsearch. unfold query. rewrite Hsearch. reflexivity.
  - intros doc docs e Hsearch Hprompt. unfold query.
    rewrite Hsearch, Hprompt. reflexivity.
  - intros doc docs prompt e Hsearch Hprompt Hgen. unfold query.
    rewrite Hsearch, Hprompt, Hgen. reflexivity.
  - intros e' self' t'. unfold query.
    destruct (similarity_search env t q k) as [[|doc docs] | e].
    + discriminate.
    + destruct (template (_format_history self) (chain_context (doc :: docs)) q)
        as [prompt | e] eqn:Hprompt.
      * destruct (generate env _ prompt) as [a | e] eqn:Hgen; [discriminate |].
        intros [= <- <- _]. split; [reflexivity |].
        exists e. split; [reflexivity |].
        right. exists doc, docs. split; [reflexivity |].
        right. exists prompt. split; [exact Hprompt | exact Hgen].
      * intros [= <- <- _]. split; [reflexivity |].
        exists e. split; [reflexivity |].
        right. exists doc, docs. split; [reflexivity |]. left. exact Hprompt.
    + intros [= <- <- _]. split; [reflexivity |].
      exists e. split; [reflexivity |]. left. reflexivity.
  - intros e Hsearch. simpl. rewrite Hsearch. reflexivity.
  - intros doc docs e Hsearch Hprompt. simpl. rewrite Hsearch, Hprompt.
    reflexivity.
  - intros doc docs prompt chunks e Hsearch Hprompt Hstream.
    rewrite (drain_same_next env template q k self _ _ _ _
               (first_next_enters_loop_any env template q k self t (doc :: docs)
                  prompt Hsearch ltac:(discriminate) Hprompt)).
    rewrite Hstream. simpl fst. simpl snd.
    apply (drain_in_loop_raises env template q k self _ e chunks [] []).
  - intros fuel received e' self' t'.
    destruct (similarity_search env t q k) as [[|doc docs] | e] eqn:Hsearch.
    + destruct fuel as [|[|fuel]]; simpl; rewrite ?Hsearch; discriminate.
    + destruct (template (_format_history self) (chain_context (doc :: docs)) q)
        as [prompt | e] eqn:Hprompt.
      * rewrite (drain_same_next env template q k self _ _ _ _
                   (first_next_enters_loop_any env template q k self t (doc :: docs)
                      prompt Hsearch ltac:(discriminate) Hprompt)).
        destruct (stream_generate env (t ++ [SimilaritySearch q k])%list prompt)
          as [chunks failure] eqn:Hstream.
        simpl fst. simpl snd.
        intros H. apply drain_in_loop_failure in H.
        destruct H as (Hself & Hgot & e & Hfail & He).
        simpl in Hgot. subst received failure e'.
        split; [exact Hself |].
        exists e. split; [reflexivity |].
        right. exists doc, docs. split; [reflexivity |].
        right. exists prompt. split; [exact Hprompt | exact Hstream].
      * destruct fuel as [|fuel]; simpl; rewrite ?Hsearch, ?Hprompt;
          [discriminate |].
        intros [= <- <- <- _]. split; [reflexivity |].
        exists e. split; [reflexivity |].
        right. exists doc, docs. split; [reflexivity |].
        left. split; [exact Hprompt | reflexivity].
    + destruct fuel as [|fuel]; simpl; rewrite ?Hsearch; [discriminate |].
      intros [= <- <- <- _]. split; [reflexivity |].
      exists e. split; [reflexivity |]. left. split; reflexivity.
Qed.

(** ** One turn feeds the next prompt *)

Lemma add_to_history_with_room (self : ConversationalRAGChain) (q a : string) :
  (Z.of_nat (List.length (chat_history self)) < max_history self)%Z ->
  _add_to_history self q a
  = mkChain (chat_history self ++ [(q, a)]) (max_history self).
Proof.
  intros Hroom. unfold _add_to_history. rewrite length_app. simpl.
  replace (Z.of_nat (List.length (chat_history self) + 1) >? max_history self)%Z
    with false; [reflexivity |].
  symmetry. rewrite Z.gtb_ltb. apply Z.ltb_ge. lia.
Qed.

(** X10.  While the history has room, a query that returns an answer, the
    fallback included, leaves a history whose formatted form is the former
    one followed by the two lines of the new turn, and the next query that
    finds documents sends the language model the template filled with exactly
    that history. *)
Theorem answered_turn_feeds_next_prompt
    (env : collaborators) (template : conversational_template)
    (t : trace) (self : ConversationalRAGChain) (q : string) (k : Z)
    (a : string) (self' : ConversationalRAGChain) (t' : trace)
    (Hroom : (Z.of_nat (List.length (chat_history self)) < max_history self)%Z)
    (Hquery : query env template t self q k = (Ok a, self', t')) :
  let history' :=
    match chat_history self with
    | [] => "用户: " ++ q ++ PyStr.nl ++ "助手: " ++ a
    | _ :: _ =>
        _format_history self ++ PyStr.nl ++ "用户: " ++ q ++ PyStr.nl ++ "助手: " ++ a
    end in
  _format_history self' = history'
  /\ (forall q2 k2 docs prompt,
        similarity_search env t' q2 k2 = Ok docs -> docs <> [] ->
        template history' (chain_context docs) q2 = Ok prompt ->
        snd (query env template t' self' q2 k2)
        = ((t' ++ [SimilaritySearch q2 k2]) ++ [LlmGenerate prompt])%list).
Proof.
  intros history'.
  assert (Hself' : self' = _add_to_history self q a).
  { revert Hquery. unfold query.
    destruct (similarity_search env t q k) as [[|doc docs] | e].
    - intros [= <- <- _]. reflexivity.
    - destruct (template (_format_history self) (chain_context (doc :: docs)) q)
        as [prompt | e]; [| discriminate].
      destruct (generate env _ prompt) as [a0 | e]; [| discriminate].
      intros [= <- <- _]. reflexivity.
    - discriminate. }
  assert (Hformat : _format_history self' = history').
  { rewrite Hself', add_to_history_with_room by exact Hroom.
    rewrite format_history_append. subst history'.
    destruct self as [h cap]. simpl. destruct h; reflexivity. }
  split; [exact Hformat |].
  intros q2 k2 docs prompt Hdocs Hne Hprompt. unfold query.
  rewrite Hdocs. destruct docs as [|doc docs]; [congruence |].
  rewrite Hformat, Hprompt.
  destruct (generate env _ prompt); reflexivity.
Qed.

Lemma answered_turn_feeds_next_prompt_example :
  let env := stub (Ok [plain_doc "d"]) (Ok "a1") ([], None) in
  let self := new_chain 3 in
  let r := query env default_conversational_template [] self "q1" 4 in
  (Z.of_nat (List.length (chat_history self)) < max_history self)%Z
  /\ fst (fst r) = Ok "a1"
  /\ _format_history (snd (fst r)) = "用户: q1" ++ PyStr.nl ++ "助手: a1".
Proof.
  assert (Hroom : (Z.of_nat (List.length (@nil (string * string))) < 3)%Z)
    by (simpl; lia).
  split; [exact Hroom |]. split; [reflexivity |].
  destruct (query (stub (Ok [plain_doc "d"]) (Ok "a1") ([], None))
              default_conversational_template [] (new_chain 3) "q1" 4)
    as [[res self'] t'] eqn:Hquery.
  assert (Hres : res = Ok "a1").
  { change res with (fst (fst (res, self', t'))). rewrite <- Hquery. reflexivity. }
  subst res.
  destruct (answered_turn_feeds_next_prompt
              (stub (Ok [plain_doc "d"]) (Ok "a1") ([], None))
              default_conversational_template [] (new_chain 3) "q1" 4
              "a1" self' t' Hroom Hquery) as [Hformat _].
  exact Hformat.
Defined.

(** ** A capacity that is not positive *)

(** X11.  With [max_history] zero or negative nothing is remembered: every
    turn added to an empty history is dropped at once, so the history stays
    empty and every prompt is built with the first-round placeholder. *)
Theorem nonpositive_capacity_remembers_nothing
    (cap : Z) (turns : list (string * string)) (Hcap : (cap <= 0)%Z) :
  add_turns (new_chain cap) turns = new_chain cap
  /\ _format_history (add_turns (new_chain cap) turns) = first_round_placeholder.
Proof.
  assert (H : add_turns (new_chain cap) turns = new_chain cap).
  { induction turns as [|[q a] turns IH]; [reflexivity |].
    unfold add_turns in *. simpl.
    replace (_add_to_history (new_chain cap) q a) with (new_chain cap); [exact IH |].
    unfold _add_to_history, new_chain. simpl.
    replace (1 >? cap)%Z with true; [reflexivity |].
    symmetry. apply Z.gtb_lt. lia. }
  split; [exact H |]. rewrite H. reflexivity.
Qed.

Lemma nonpositive_capacity_remembers_nothing_example :
  (0 <= 0)%Z
  /\ add_turns (new_chain 0) [("q1", "a1"); ("q2", "a2")] = new_chain 0
  /\ _format_history (add_turns (new_chain 0) [("q1", "a1"); ("q2", "a2")])
     = first_round_placeholder.
Proof.
  assert (Hcap : (0 <= 0)%Z) by lia.
  split; [exact Hcap |].
  apply (nonpositive_capacity_remembers_nothing 0 [("q1", "a1"); ("q2", "a2")] Hcap).
Defined.

(** * The chain without history *)

Section RAGChainFacts.

Variable env : collaborators.
Variable template : prompt_template.
Variables (q : string) (k : Z).

Lemma rag_drain_same_next (pc pc' : stream_pc) (t t' : trace) :
  RAGChain.stream_query_next env template q k pc t
  = RAGChain.stream_query_next env template q k pc' t' ->
  forall fuel received,
    RAGChain.stream_query_drain env template fuel q k pc t received
    = RAGChain.stream_query_drain env template fuel q k pc' t' received.
Proof.
  intros Hnext [|fuel] received; simpl; [reflexivity |].
  rewrite Hnext. reflexivity.
Qed.

Lemma rag_first_next_enters_loop (t : trace) (docs : list Document) (prompt : string) :
  similarity_search env t q k = Ok docs -> docs <> [] ->
  template (chain_context docs) q = Ok prompt ->
  RAGChain.stream_query_next env template q k NotStarted t
  = RAGChain.stream_query_next env template q k
      (AtChunkYield []
         (fst (stream_generate env (t ++ [SimilaritySearch q k])%list prompt))
         (snd (stream_generate env (t ++ [SimilaritySearch q k])%list prompt)))
      ((t ++ [SimilaritySearch q k]) ++ [LlmStreamGenerate prompt])%list.
Proof.
  intros Hdocs Hne Hprompt. unfold RAGChain.stream_query_next.
  rewrite Hdocs. destruct docs as [|doc docs]; [congruence |].
  rewrite Hprompt. reflexivity.
Qed.

(** Draining the generator from inside its loop: all the pending increments
    are received, and the loop ends as the stream of the model does. *)
Lemma rag_drain_in_loop (t : trace) (failure : option exn) :
  forall pending parts received,
    RAGChain.stream_query_drain env template (S (List.length pending)) q k
      (AtChunkYield parts pending failure) t received
    = Some ((received ++ pending)%list,
            option_map RAGChain.stream_query_error failure, t).
Proof.
  induction pending as [|chunk rest IH]; intros parts received.
  - simpl. rewrite app_nil_r. destruct failure; reflexivity.
  - change (List.length (chunk :: rest)) with (S (List.length rest)).
    remember (S (List.length rest)) as n eqn:Hn.
    simpl. subst n. rewrite IH. rewrite <- app_assoc. reflexivity.
Qed.

End RAGChainFacts.

Lemma rag_fallbacks_differ : RAGChain.no_docs_answer <> chain_no_docs_answer.
Proof. discriminate. Qed.

(** X12.  In the chain without history, for a language-model stub that does
    not fail and whose increments join to what its blocking call returns, the
    drained streaming query yields increments that join to the answer of the
    blocking query whenever the store finds documents.  When it finds none the
    two differ: the blocking query returns one fallback sentence and the
    streaming query yields another. *)
Theorem rag_streaming_and_blocking
    (env : collaborators) (template : prompt_template)
    (answer_of : string -> string) (chunks_of : string -> list string)
    (Hgenerate : forall t p, generate env t p = Ok (answer_of p))
    (Hstream : forall t p, stream_generate env t p = (chunks_of p, None))
    (Hjoin : forall p, PyStr.concat_all (chunks_of p) = answer_of p)
    (t : trace) (q : string) (k : Z) :
  (forall docs prompt,
      similarity_search env t q k = Ok docs -> docs <> [] ->
      template (chain_context docs) q = Ok prompt ->
      exists t_s,
        RAGChain.stream_query_drain env template
          (S (List.length (chunks_of prompt))) q k NotStarted t []
        = Some (chunks_of prompt, None, t_s)
        /\ fst (RAGChain.query env template t q k)
           = Ok (PyStr.concat_all (chunks_of prompt)))
  /\ (similarity_search env t q k = Ok [] ->
      fst (RAGChain.query env template t q k) = Ok RAGChain.no_docs_answer
      /\ RAGChain.stream_query_drain env template 2 q k NotStarted t []
         = Some ([chain_no_docs_answer], None, (t ++ [SimilaritySearch q k])%list)
      /\ PyStr.concat_all [chain_no_docs_answer] <> RAGChain.no_docs_answer).
Proof.
  split.
  - intros docs prompt Hdocs Hne Hprompt. eexists. split.
    + rewrite (rag_drain_same_next env template q k _ _ _ _
                 (rag_first_next_enters_loop env template q k t docs prompt
                    Hdocs Hne Hprompt)).
      rewrite Hstream. simpl fst. simpl snd.
      apply (rag_drain_in_loop env template q k _ None (chunks_of prompt) [] []).
    + unfold RAGChain.query. rewrite Hdocs.
      destruct docs as [|doc docs]; [congruence |].
      rewrite Hprompt, Hgenerate, Hjoin. reflexivity.
  - intros Hempty. unfold RAGChain.query. simpl. rewrite Hempty.
    split; [reflexivity |]. split; [reflexivity |].
    intros H. apply rag_fallbacks_differ. symmetry. exact H.
Qed.

Lemma rag_streaming_and_blocking_example :
  let env := stub (Ok []) (Ok "answer") (["ans"; "wer"], None) in
  (forall t p, generate env t p = Ok "answer")
  /\ (forall t p, stream_generate env t p = (["ans"; "wer"], None))
  /\ PyStr.concat_all ["ans"; "wer"] = "answer"
  /\ fst (RAGChain.query env default_template [] "q" 4) = Ok RAGChain.no_docs_answer
  /\ RAGChain.stream_query_drain env default_template 2 "q" 4 NotStarted [] []
     = Some ([chain_no_docs_answer], None, [SimilaritySearch "q" 4]).
Proof.
  split; [reflexivity |]. split; [reflexivity |]. split; [reflexivity |].
  destruct (rag_streaming_and_blocking
              (stub (Ok []) (Ok "answer") (["ans"; "wer"], None)) default_template
              (fun _ => "answer") (fun _ => ["ans"; "wer"])
              (fun _ _ => eq_refl) (fun _ _ => eq_refl) (fun _ => eq_refl)
              [] "q" 4) as [_ Hempty].
  destruct (Hempty eq_refl) as (Hquery & Hdrain & _).
  split; [exact Hquery | exact Hdrain].
Defined.

(** * The decorators *)

Section RetryFacts.

Variable node_func : raising_node.
Variable max_retries : Z.

Lemma retry_loop_S (remaining : nat) (attempt : Z) (calls : nat) (state : AgentState) :
  retry_loop node_func max_retries (S remaining) attempt calls state
  = match node_func calls state with
    | (state', None) => (Some state', state', S calls)
    | (state', Some e) =>
        if (attempt =? max_retries - 1)%Z then
          let failed :=
            set_error
              (Some ("重试" ++ str_of_Z max_retries ++ "次后失败: " ++ e)) state' in
          (Some failed, failed, S calls)
        else retry_loop node_func max_retries remaining (attempt + 1)%Z
               (S calls) state'
    end.
Proof. reflexivity. Qed.

(** The loop of [with_retry], entered with [remaining] turns to go: it makes
    at least one call and at most [remaining], and returns a state. *)
Lemma retry_loop_returns (remaining : nat) :
  forall (attempt : Z) (calls : nat) (state : AgentState),
    (attempt + Z.of_nat (S remaining) = max_retries)%Z ->
    exists state' n,
      retry_loop node_func max_retries (S remaining) attempt calls state
      = (Some state', state', (calls + n)%nat)
      /\ (1 <= n <= S remaining)%nat.
Proof.
  induction remaining as [|remaining IH]; intros attempt calls state Hinv;
    rewrite retry_loop_S; destruct (node_func calls state) as [state' [e |]].
  - replace (attempt =? max_retries - 1)%Z with true
      by (symmetry; apply Z.eqb_eq; lia).
    eexists _, 1%nat. rewrite Nat.add_1_r. split; [reflexivity | lia].
  - eexists _, 1%nat. rewrite Nat.add_1_r. split; [reflexivity | lia].
  - replace (attempt =? max_retries - 1)%Z with false
      by (symmetry; apply Z.eqb_neq; lia).
    destruct (IH (attempt + 1)%Z (S calls) state') as (s & n & Hs & Hn); [lia |].
    exists s, (S n). rewrite Hs.
    replace (S calls + n)%nat with (calls + S n)%nat by lia.
    split; [reflexivity | lia].
  - eexists _, 1%nat. rewrite Nat.add_1_r. split; [reflexivity | lia].
Qed.

(** When every call raises, the loop uses all its turns and reports the
    exception of the last call in the error field of the state that call
    left. *)
Lemma retry_loop_all_fail (raised : nat -> AgentState -> exn) (remaining : nat) :
  (forall i s, snd (node_func i s) = Some (raised i s)) ->
  forall (attempt : Z) (calls : nat) (state : AgentState),
    (attempt + Z.of_nat (S remaining) = max_retries)%Z ->
    let last := after_failures node_func remaining calls state in
    let failed :=
      set_error
        (Some ("重试" ++ str_of_Z max_retries ++ "次后失败: "
               ++ raised (calls + remaining)%nat last))
        (fst (node_func (calls + remaining)%nat last)) in
    retry_loop node_func max_retries (S remaining) attempt calls state
    = (Some failed, failed, (calls + S remaining)%nat).
Proof.
  intros Hfail.
  induction remaining as [|remaining IH]; intros attempt calls state Hinv;
    cbv zeta; rewrite retry_loop_S; pose proof (Hfail calls state) as Hnow;
    destruct (node_func calls state) as [state' [e |]] eqn:Hcall;
    simpl in Hnow; try discriminate; injection Hnow as ->.
  - replace (attempt =? max_retries - 1)%Z with true
      by (symmetry; apply Z.eqb_eq; lia).
    simpl after_failures. rewrite Nat.add_0_r, Nat.add_1_r, Hcall.
    reflexivity.
  - replace (attempt =? max_retries - 1)%Z with false
      by (symmetry; apply Z.eqb_neq; lia).
    rewrite (IH (attempt + 1)%Z (S calls) state') by lia.
    simpl after_failures. rewrite Hcall. cbn [fst].
    replace (S calls + remaining)%nat with (calls + S remaining)%nat by lia.
    replace (S calls + S remaining)%nat with (calls + S (S remaining))%nat by lia.
    reflexivity.
Qed.

End RetryFacts.

(** X13.  [with_retry] calls the node at most [max_retries] times.  With
    [max_retries] of at least one it calls it at least once and returns a
    state; when the first call succeeds that is the only call and its result
    is returned.  With [max_retries] zero or negative the node is never called
    and the wrapper returns [None], the state untouched. *)
Theorem with_retry_calls
    (max_retries : Z) (node_func : raising_node) (calls : nat) (state : AgentState) :
  exists returned state' n,
    with_retry max_retries node_func calls state = (returned, state', (calls + n)%nat)
    /\ (n <= Z.to_nat max_retries)%nat
    /\ ((max_retries <= 0)%Z -> returned = None /\ state' = state /\ n = 0%nat)
    /\ ((1 <= max_retries)%Z -> returned = Some state' /\ (1 <= n)%nat)
    /\ ((1 <= max_retries)%Z -> snd (node_func calls state) = None ->
        state' = fst (node_func calls state) /\ n = 1%nat).
Proof.
  unfold with_retry.
  destruct (Z.to_nat max_retries) as [|remaining] eqn:Hmax.
  - exists None, state, 0%nat. rewrite Nat.add_0_r.
    split; [reflexivity |]. split; [lia |]. split; [auto |].
    split; intros; lia.
  - destruct (retry_loop_returns node_func max_retries remaining 0%Z calls state)
      as (s & n & Hs & Hn); [lia |].
    exists (Some s), s, n. split; [exact Hs |]. split; [lia |].
    split; [intros; lia |]. split; [intros _; split; [reflexivity | lia] |].
    intros _ Hok. revert Hs. rewrite retry_loop_S.
    destruct (node_func calls state) as [s1 [e |]]; [simpl in Hok; discriminate |].
    intros [= <- Hcalls]. split; [reflexivity | lia].
Qed.

(** X14.  When the node raises at every call and [max_retries] is at least
    one, [with_retry] calls it exactly [max_retries] times, each call on the
    state the call before left, and then returns the state the last call
    left with the error field set to ["重试" ++ str(max_retries) ++
    "次后失败: "] followed by the text of the exception that last call
    raised. *)
Theorem with_retry_gives_up
    (max_retries : Z) (node_func : raising_node)
    (raised : nat -> AgentState -> exn) (calls : nat) (state : AgentState)
    (Hmax : (1 <= max_retries)%Z)
    (Hfail : forall i s, snd (node_func i s) = Some (raised i s)) :
  let failures_before := (Z.to_nat max_retries - 1)%nat in
  let last := after_failures node_func failures_before calls state in
  let e := raised (calls + failures_before)%nat last in
  let state' :=
    set_error (Some ("重试" ++ str_of_Z max_retries ++ "次后失败: " ++ e))
      (fst (node_func (calls + failures_before)%nat last)) in
  with_retry max_retries node_func calls state
  = (Some state', state', (calls + Z.to_nat max_retries)%nat)
  /\ error state' = Some ("重试" ++ str_of_Z max_retries ++ "次后失败: " ++ e)
  /\ snd (node_func (calls + failures_before)%nat last) = Some e.
Proof.
  cbv zeta. unfold with_retry.
  destruct (Z.to_nat max_retries) as [|remaining] eqn:Hn; [lia |].
  replace (S remaining - 1)%nat with remaining by lia.
  split; [| split; [reflexivity | apply Hfail]].
  apply (retry_loop_all_fail node_func max_retries raised remaining Hfail).
  lia.
Qed.

Lemma with_retry_gives_up_example :
  let node_func : raising_node :=
    fun i s => (set_retrieval_query (Some (PyStr.str_of_nat i)) s,
                Some ("boom " ++ PyStr.str_of_nat i)) in
  let raised : nat -> AgentState -> exn :=
    fun i _ => "boom " ++ PyStr.str_of_nat i in
  let state' :=
    set_error (Some "重试3次后失败: boom 2")
      (set_retrieval_query (Some "2") (create_initial_state "q" 5)) in
  (1 <= 3)%Z
  /\ (forall i s, snd (node_func i s) = Some (raised i s))
  /\ with_retry 3 node_func 0 (create_initial_state "q" 5)
     = (Some state', state', 3%nat)
  /\ error state' = Some "重试3次后失败: boom 2".
Proof.
  assert (Hmax : (1 <= 3)%Z) by lia.
  assert (Hfail : forall (i : nat) (s : AgentState),
             snd ((fun i0 s0 =>
                     (set_retrieval_query (Some (PyStr.str_of_nat i0)) s0,
                      Some ("boom " ++ PyStr.str_of_nat i0)))
                    i s : AgentState * option exn)
             = Some ((fun i0 (_ : AgentState) => "boom " ++ PyStr.str_of_nat i0) i s))
    by (intros i s; reflexivity).
  split; [exact Hmax |]. split; [exact Hfail |].
  destruct (with_retry_gives_up 3
              (fun i s => (set_retrieval_query (Some (PyStr.str_of_nat i)) s,
                           Some ("boom " ++ PyStr.str_of_nat i)))
              (fun i _ => "boom " ++ PyStr.str_of_nat i)
              0 (create_initial_state "q" 5) Hmax Hfail)
    as (Hretry & Herror & _).
  split; [exact Hretry | exact Herror].
Defined.

(** X15.  A node wrapped in [with_error_handling] never raises, so wrapping
    it a second time changes nothing, and [with_retry] around it never
    retries: the node is called exactly once, and a failure is reported with
    the message of [with_error_handling], not with the retry message. *)
Theorem retry_around_error_handling
    (max_retries : Z) (name : string) (node_func : raising_node)
    (calls : nat) (state : AgentState)
    (Hmax : (1 <= max_retries)%Z) :
  let handled := with_error_handling name node_func in
  snd (handled calls state) = None
  /\ (forall name', with_error_handling name' handled calls state = handled calls state)
  /\ with_retry max_retries handled calls state
     = (Some (fst (handled calls state)), fst (handled calls state), S calls)
  /\ (forall e,
        snd (node_func calls state) = Some e ->
        error (fst (handled calls state)) = Some (name ++ " 失败: " ++ e)).
Proof.
  intros handled. subst handled. unfold with_retry, with_error_handling.
  destruct (Z.to_nat max_retries) as [|remaining] eqn:Hn; [lia |].
  rewrite retry_loop_S.
  destruct (node_func calls state) as [state' [e |]]; simpl;
    (split; [reflexivity |]); (split; [reflexivity |]);
    (split; [reflexivity |]).
  - intros e' [= <-]. reflexivity.
  - discriminate.
Qed.

Lemma retry_around_error_handling_example :
  let node_func : raising_node := fun _ s => (s, Some "boom") in
  let handled := with_error_handling "retrieve_node" node_func in
  (1 <= 3)%Z
  /\ with_retry 3 handled 0 (create_initial_state "q" 5)
     = (Some (fst (handled 0%nat (create_initial_state "q" 5))),
        fst (handled 0%nat (create_initial_state "q" 5)), 1%nat)
  /\ error (fst (handled 0%nat (create_initial_state "q" 5)))
     = Some "retrieve_node 失败: boom".
Proof.
  assert (Hmax : (1 <= 3)%Z) by lia.
  split; [exact Hmax |].
  destruct (retry_around_error_handling 3 "retrieve_node"
              (fun _ s => (s, Some "boom")) 0 (create_initial_state "q" 5) Hmax)
    as (_ & _ & Hretry & Herror).
  split; [exact Hretry | exact (Herror "boom" eq_refl)].
Defined.

(** ** The retrieve node that retries *)

Section RetrieveRetryFacts.

Variable search : nat -> string -> Res (list Document).
Variable max_retries : Z.

Lemma retrieve_retry_loop_S (remaining : nat) (attempt : Z) (searches : nat)
    (state : AgentState) :
  retrieve_retry_loop search max_retries (S remaining) attempt searches state
  = match search searches (question state) with
    | Ok docs =>
        (set_error None (set_retrieved_docs (Some docs) state), S searches)
    | Raise e =>
        if (attempt =? max_retries - 1)%Z then
          (set_retrieved_docs (Some [])
             (set_error
                (Some ("重试" ++ str_of_Z max_retries ++ "次后仍失败: " ++ e))
                state),
           S searches)
        else retrieve_retry_loop search max_retries remaining (attempt + 1)%Z
               (S searches) state
    end.
Proof. reflexivity. Qed.

(** The loop returns what the first successful search found. *)
Lemma retrieve_retry_loop_first_success (state : AgentState) (docs : list Document)
    (i : nat) :
  forall (remaining : nat) (attempt : Z) (searches : nat),
    (i < remaining)%nat ->
    (attempt + Z.of_nat remaining = max_retries)%Z ->
    (forall j, (j < i)%nat ->
               exists e, search (searches + j)%nat (question state) = Raise e) ->
    search (searches + i)%nat (question state) = Ok docs ->
    retrieve_retry_loop search max_retries remaining attempt searches state
    = (set_error None (set_retrieved_docs (Some docs) state), S (searches + i)).
Proof.
  induction i as [|i IH]; intros remaining attempt searches Hi Hinv Hbefore Hok;
    (destruct remaining as [|remaining]; [lia |]); rewrite retrieve_retry_loop_S.
  - rewrite Nat.add_0_r in Hok. rewrite Hok, Nat.add_0_r. reflexivity.
  - destruct (Hbefore 0%nat) as [e He]; [lia |].
    rewrite Nat.add_0_r in He. rewrite He.
    replace (attempt =? max_retries - 1)%Z with false
      by (symmetry; apply Z.eqb_neq; lia).
    rewrite (IH remaining (attempt + 1)%Z (S searches)).
    + f_equal. lia.
    + lia.
    + lia.
    + intros j Hj. destruct (Hbefore (S j)) as [e' He']; [lia |].
      exists e'. rewrite <- He'. f_equal. lia.
    + rewrite <- Hok. f_equal. lia.
Qed.

(** When every search raises, the loop uses all its turns and reports the
    last exception. *)
Lemma retrieve_retry_loop_all_fail (state : AgentState) (e : nat -> exn) :
  forall (remaining : nat) (attempt : Z) (searches : nat),
    (attempt + Z.of_nat (S remaining) = max_retries)%Z ->
    (forall j, (j <= remaining)%nat ->
               search (searches + j)%nat (question state) = Raise (e (searches + j)%nat)) ->
    retrieve_retry_loop search max_retries (S remaining) attempt searches state
    = (set_retrieved_docs (Some [])
         (set_error
            (Some ("重试" ++ str_of_Z max_retries ++ "次后仍失败: "
                   ++ e (searches + remaining)%nat))
            state),
       S (searches + remaining)).
Proof.
  induction remaining as [|remaining IH]; intros attempt searches Hinv Hfail;
    rewrite retrieve_retry_loop_S;
    pose proof (Hfail 0%nat ltac:(lia)) as Hnow;
    rewrite Nat.add_0_r in Hnow; rewrite Hnow.
  - replace (attempt =? max_retries - 1)%Z with true
      by (symmetry; apply Z.eqb_eq; lia).
    rewrite Nat.add_0_r. reflexivity.
  - replace (attempt =? max_retries - 1)%Z with false
      by (symmetry; apply Z.eqb_neq; lia).
    rewrite (IH (attempt + 1)%Z (S searches)).
    + replace (S searches + remaining)%nat with (searches + S remaining)%nat by lia.
      reflexivity.
    + lia.
    + intros j Hj.
      replace (S searches + j)%nat with (searches + S j)%nat by lia.
      apply Hfail. lia.
Qed.

End RetrieveRetryFacts.

(** X16.  The retrieve node that retries returns at the first search that
    succeeds: when the searches before attempt [i] raise and attempt [i],
    within [max_retries], finds documents, the node has searched exactly
    [i + 1] times, stores those documents and clears the error field, also an
    error that was in the state before. *)
Theorem retrieve_with_retry_first_success
    (search : nat -> string -> Res (list Document)) (max_retries : Z)
    (searches : nat) (state : AgentState) (docs : list Document) (i : nat)
    (Hi : (i < Z.to_nat max_retries)%nat)
    (Hbefore : forall j, (j < i)%nat ->
                 exists e, search (searches + j)%nat (question state) = Raise e)
    (Hok : search (searches + i)%nat (question state) = Ok docs) :
  let r := create_retrieve_with_retry search max_retries searches state in
  snd r = S (searches + i)
  /\ retrieved_docs (fst r) = Some docs
  /\ error (fst r) = None
  /\ fst r = set_error None (set_retrieved_docs (Some docs) state).
Proof.
  intros r. subst r. unfold create_retrieve_with_retry.
  rewrite (retrieve_retry_loop_first_success search max_retries state docs i
             (Z.to_nat max_retries) 0%Z searches Hi ltac:(lia) Hbefore Hok).
  repeat split; reflexivity.
Qed.

Lemma retrieve_with_retry_first_success_example :
  let search : nat -> string -> Res (list Document) :=
    fun n _ => if (n <? 2)%nat then Raise "down" else Ok [plain_doc "d"] in
  let state := set_error (Some "earlier") (create_initial_state "q" 5) in
  (2 < Z.to_nat 3)%nat
  /\ search 2%nat "q" = Ok [plain_doc "d"]
  /\ (let r := create_retrieve_with_retry search 3 0 state in
      snd r = 3%nat
      /\ retrieved_docs (fst r) = Some [plain_doc "d"]
      /\ error (fst r) = None).
Proof.
  assert (Hi : (2 < Z.to_nat 3)%nat) by (simpl; lia).
  split; [exact Hi |]. split; [reflexivity |].
  destruct (retrieve_with_retry_first_success
              (fun n _ => if (n <? 2)%nat then Raise "down" else Ok [plain_doc "d"])
              3 0 (set_error (Some "earlier") (create_initial_state "q" 5))
              [plain_doc "d"] 2 Hi) as (Hn & Hdocs & Herr & _).
  - intros j Hj. exists "down". simpl.
    destruct j as [|[|j]]; [reflexivity | reflexivity | lia].
  - reflexivity.
  - split; [exact Hn |]. split; [exact Hdocs | exact Herr].
Defined.

(** X17.  When every search raises, the retrieve node that retries searches
    exactly [max_retries] times, then sets the error field to the retry
    message ending with the last exception and the documents to the empty
    list.  With [max_retries] zero or negative it does not search and returns
    the state as it was. *)
Theorem retrieve_with_retry_gives_up
    (search : nat -> string -> Res (list Document)) (max_retries : Z)
    (searches : nat) (state : AgentState) (e : nat -> exn)
    (Hfail : forall j, (j < Z.to_nat max_retries)%nat ->
               search (searches + j)%nat (question state)
               = Raise (e (searches + j)%nat)) :
  ((1 <= max_retries)%Z ->
   create_retrieve_with_retry search max_retries searches state
   = (set_retrieved_docs (Some [])
        (set_error
           (Some ("重试" ++ str_of_Z max_retries ++ "次后仍失败: "
                  ++ e (searches + Z.to_nat max_retries - 1)%nat))
           state),
      (searches + Z.to_nat max_retries)%nat))
  /\ ((max_retries <= 0)%Z ->
      create_retrieve_with_retry search max_retries searches state
      = (state, searches)).
Proof.
  unfold create_retrieve_with_retry. split; intros Hmax.
  - destruct (Z.to_nat max_retries) as [|remaining] eqn:Hn; [lia |].
    rewrite (retrieve_retry_loop_all_fail search max_retries state e remaining
               0%Z searches ltac:(lia)).
    + replace (searches + S remaining - 1)%nat with (searches + remaining)%nat by lia.
      replace (searches + S remaining)%nat with (S (searches + remaining)) by lia.
      reflexivity.
    + intros j Hj. apply Hfail. lia.
  - replace (Z.to_nat max_retries) with 0%nat by lia. reflexivity.
Qed.

Lemma retrieve_with_retry_gives_up_example :
  let search : nat -> string -> Res (list Document) := fun _ _ => Raise "down" in
  let state := create_initial_state "q" 5 in
  (forall j, (j < Z.to_nat 3)%nat -> search (0 + j)%nat (question state) = Raise "down")
  /\ create_retrieve_with_retry search 3 0 state
     = (set_retrieved_docs (Some [])
          (set_error (Some ("重试" ++ str_of_Z 3 ++ "次后仍失败: " ++ "down")) state),
        3%nat).
Proof.
  assert (Hfail : forall j : nat, (j < Z.to_nat 3)%nat ->
             (fun (_ : nat) (_ : string) => @Raise (list Document) "down")
               (0 + j)%nat (question (create_initial_state "q" 5))
             = Raise ((fun _ : nat => "down") (0 + j)%nat))
    by (intros; reflexivity).
  split; [exact Hfail |].
  destruct (retrieve_with_retry_gives_up (fun _ _ => Raise "down") 3 0
              (create_initial_state "q" 5) (fun _ => "down") Hfail) as [Hgive _].
  apply Hgive. lia.
Defined.

(** * The streaming generate node *)

(** X18.  The streaming generate node never counts a step and never sets the
    error field.  When the stream of the model completes it stores the joined
    increments as the answer; when the stream fails, the exception leaves the
    node as it is and the state is untouched, the increments received being
    dropped.  So after an empty stream [decide_node] asks for generation
    again, on a state whose step count has not moved. *)
Theorem stream_generate_node_contract
    (llm : collaborators) (template : prompt_template)
    (t : trace) (state : AgentState) :
  let r := stream_generate_node llm template t state in
  let state' := fst (fst r) in
  step_count state' = step_count state
  /\ error state' = error state
  /\ (snd (fst r) <> None -> state' = state)
  /\ (forall doc docs prompt chunks,
        retrieved_docs state = Some (doc :: docs) ->
        template (plain_context (doc :: docs)) (question state) = Ok prompt ->
        stream_generate llm t prompt = (chunks, None) ->
        snd (fst r) = None /\ state' = set_answer (Some (PyStr.concat_all chunks)) state)
  /\ (forall doc docs prompt chunks e,
        retrieved_docs state = Some (doc :: docs) ->
        template (plain_context (doc :: docs)) (question state) = Ok prompt ->
        stream_generate llm t prompt = (chunks, Some e) ->
        snd (fst r) = Some e /\ state' = state)
  /\ (forall doc docs prompt,
        retrieved_docs state = Some (doc :: docs) ->
        template (plain_context (doc :: docs)) (question state) = Ok prompt ->
        stream_generate llm t prompt = ([], None) ->
        decide_node state = Generate ->
        decide_node state' = Generate
        /\ get_step_count state' = get_step_count state).
Proof.
  intros r state'. subst state' r. unfold stream_generate_node.
  destruct (retrieved_docs state) as [[|doc docs] |] eqn:Hdocs;
    try (simpl; split; [reflexivity |]; split; [reflexivity |];
         split; [congruence |]; repeat split; discriminate).
  destruct (template (plain_context (doc :: docs)) (question state))
    as [prompt | e] eqn:Hprompt.
  - destruct (stream_generate llm t prompt) as [chunks [e |]] eqn:Hstream; simpl.
    + split; [reflexivity |]. split; [reflexivity |]. split; [reflexivity |].
      split; [| split].
      * intros doc' docs' prompt' chunks' [= <- <-] Hp Hs. congruence.
      * intros doc' docs' prompt' chunks' e' [= <- <-] Hp Hs.
        assert (prompt' = prompt) by congruence. subst prompt'.
        rewrite Hstream in Hs. injection Hs as _ <-. auto.
      * intros doc' docs' prompt' [= <- <-] Hp Hs. congruence.
    + split; [reflexivity |]. split; [reflexivity |]. split; [congruence |].
      split; [| split].
      * intros doc' docs' prompt' chunks' [= <- <-] Hp Hs.
        assert (prompt' = prompt) by congruence. subst prompt'.
        rewrite Hstream in Hs. injection Hs as <-. auto.
      * intros doc' docs' prompt' chunks' e' [= <- <-] Hp Hs. congruence.
      * intros doc' docs' prompt' [= <- <-] Hp Hs Hdecide.
        assert (prompt' = prompt) by congruence. subst prompt'.
        rewrite Hstream in Hs. injection Hs as ->.
        split; [| reflexivity].
        revert Hdecide. unfold decide_node, docs_truthy. state_simpl.
        fold (get_step_count state). fold (get_max_steps state).
        destruct (get_step_count state >=? get_max_steps state)%Z; [discriminate |].
        destruct (PyStr.opt_truthy (answer state)); [discriminate |].
        simpl. auto.
  - simpl. split; [reflexivity |]. split; [reflexivity |]. split; [reflexivity |].
    repeat split; intros; congruence.
Qed.

(** * Variants of the decide node *)

(** X19.  The quality-based decide node ends the turn in two cases only: the
    step budget is used up, or there is an answer whose confidence is above
    0.8.  An answer whose confidence lies between 0.6 and 0.8 is neither
    accepted nor sent to refinement: the decision is then taken on the
    retrieval alone, and over documents scored 0.7 or more it is to generate
    again. *)
Theorem quality_based_end (state : TrackedState) :
  let s := agent state in
  let confidence :=
    match confidence_score s with
    | Some x => x
    | None => 0%Q
    end in
  (quality_based_decide_node state = "end" <->
     (get_step_count s >= get_max_steps s)%Z
     \/ (PyStr.opt_truthy (answer s) = true /\ (0.8 < confidence)%Q))
  /\ ((get_step_count s < get_max_steps s)%Z ->
      PyStr.opt_truthy (answer s) = true ->
      (0.6 <= confidence <= 0.8)%Q ->
      docs_truthy s = true ->
      (0.7 <= get_retrieval_score 0%Q s)%Q ->
      quality_based_decide_node state = "generate").
Proof.
  intros s confidence. unfold quality_based_decide_node. fold s. fold confidence.
  destruct (get_step_count s >=? get_max_steps s)%Z eqn:Hge.
  - rewrite Z.geb_leb in Hge. apply Z.leb_le in Hge.
    split; [split; [intros _; left; lia | reflexivity] | intros; lia].
  - rewrite Z.geb_leb in Hge. apply Z.leb_gt in Hge.
    destruct (PyStr.opt_truthy (answer s)) eqn:Ha; simpl.
    + destruct (PyNum.ltb 0.8 confidence) eqn:Hhigh.
      * apply ltb_true_lt in Hhigh.
        split; [split; [intros _; right; auto | reflexivity] |].
        intros _ _ [_ Hle]. lra.
      * apply ltb_false_le in Hhigh.
        destruct (PyNum.ltb confidence 0.6) eqn:Hlow.
        -- apply ltb_true_lt in Hlow.
           split; [split; [discriminate | intros [H | [_ H]]; [lia | lra]] |].
           intros _ _ [Hlo _]. lra.
        -- split.
           ++ split; [| intros [H | [_ H]]; [lia | lra]].
              destruct (negb (docs_truthy s)); [discriminate |].
              destruct (PyNum.ltb (get_retrieval_score 0 s) 0.5);
                [destruct (_ <? 2)%Z; discriminate |].
              destruct (PyNum.ltb (get_retrieval_score 0 s) 0.7); discriminate.
           ++ intros _ _ _ Hdocs Hscore. rewrite Hdocs. simpl.
              destruct (PyNum.ltb (get_retrieval_score 0 s) 0.5) eqn:H5;
                [apply ltb_true_lt in H5; lra |].
              destruct (PyNum.ltb (get_retrieval_score 0 s) 0.7) eqn:H7;
                [apply ltb_true_lt in H7; lra | reflexivity].
    + split; [| intros; discriminate].
      split; [| intros [H | [H _]]; [lia | discriminate]].
      destruct (negb (docs_truthy s)); [discriminate |].
      destruct (PyNum.ltb (get_retrieval_score 0 s) 0.5);
        [destruct (_ <? 2)%Z; discriminate |].
      destruct (PyNum.ltb (get_retrieval_score 0 s) 0.7); discriminate.
Qed.

(** ** The decide node with loop control *)

Section LoopControlFacts.

Variable a : AgentState.
Variable attempts : option Z.

Hypothesis Hbudget : (get_step_count a < get_max_steps_10 a)%Z.
Hypothesis Hopen : docs_truthy a = false \/ PyStr.opt_truthy (answer a) = false.

(** The step the node keeps asking for while the state does not change. *)
Let wanted : string := if docs_truthy a then "generate" else "retrieve".

(** On an unchanged agent state the node either breaks the loop, leaving the
    path alone, or appends the same wanted step to the path. *)
Lemma loop_control_cases (path : option (list string)) :
  let p := match path with Some p => p | None => [] end in
  loop_control_decide_node (mkTrackedState a attempts path)
  = if (3 <=? List.length p)%nat && (distinct_count (lastn 3 p) =? 1)%nat
    then ("break_loop", mkTrackedState a attempts path)
    else (wanted, mkTrackedState a attempts (Some (p ++ [wanted])%list)).
Proof.
  intros p. unfold loop_control_decide_node. simpl agent. simpl execution_path.
  simpl retrieval_attempts. fold p.
  replace (get_step_count a >=? get_max_steps_10 a)%Z with false
    by (symmetry; rewrite Z.geb_leb; apply Z.leb_gt; exact Hbudget).
  destruct ((3 <=? List.length p)%nat && (distinct_count (lastn 3 p) =? 1)%nat);
    [reflexivity |].
  subst wanted. destruct (docs_truthy a) eqn:Hdocs; simpl; [| reflexivity].
  destruct Hopen as [H | H]; [discriminate |]. rewrite H. reflexivity.
Qed.

Lemma three_wanted_is_stuck (p : list string) :
  ((3 <=? List.length (((p ++ [wanted]) ++ [wanted]) ++ [wanted]))%nat
   && (distinct_count (lastn 3 (((p ++ [wanted]) ++ [wanted]) ++ [wanted])) =? 1)%nat)
  = true.
Proof.
  rewrite <- !app_assoc. simpl app.
  replace (lastn 3 (p ++ [wanted; wanted; wanted])) with [wanted; wanted; wanted].
  - rewrite length_app. simpl List.length.
    replace (3 <=? List.length p + 3)%nat with true
      by (symmetry; apply Nat.leb_le; lia).
    subst wanted. destruct (docs_truthy a); reflexivity.
  - unfold lastn. rewrite length_app. simpl List.length.
    replace (List.length p + 3 - 3)%nat with (List.length p + 0)%nat by lia.
    rewrite skipn_app, Nat.add_0_r, skipn_all, Nat.sub_diag. reflexivity.
Qed.

(** Once the node breaks the loop it keeps doing so. *)
Lemma break_loop_is_stable (path : option (list string)) (n : nat) :
  fst (loop_control_decide_node (mkTrackedState a attempts path)) = "break_loop" ->
  ask_repeatedly n (mkTrackedState a attempts path)
  = (repeat "break_loop" n, mkTrackedState a attempts path).
Proof.
  intros Hbreak.
  assert (Hsame : loop_control_decide_node (mkTrackedState a attempts path)
                  = ("break_loop", mkTrackedState a attempts path)).
  { revert Hbreak. rewrite loop_control_cases.
    destruct (_ && _); [reflexivity |].
    subst wanted. destruct (docs_truthy a); discriminate. }
  induction n as [|n IH]; [reflexivity |].
  simpl. rewrite Hsame. simpl. rewrite IH. reflexivity.
Qed.

Lemma ask_repeatedly_S (n i : nat) (state : TrackedState) :
  nth (S i) (fst (ask_repeatedly (S n) state)) ""
  = nth i (fst (ask_repeatedly n (snd (loop_control_decide_node state)))) ""
  /\ snd (ask_repeatedly (S n) state)
     = snd (ask_repeatedly n (snd (loop_control_decide_node state))).
Proof. split; reflexivity. Qed.

Lemma stays_broken (path : option (list string)) (n i : nat) :
  fst (loop_control_decide_node (mkTrackedState a attempts path)) = "break_loop" ->
  (i < n)%nat ->
  nth i (fst (ask_repeatedly n (mkTrackedState a attempts path))) "" = "break_loop"
  /\ agent (snd (ask_repeatedly n (mkTrackedState a attempts path))) = a.
Proof.
  intros Hb Hi. rewrite (break_loop_is_stable path n Hb).
  split; [| reflexivity]. apply nth_repeat_lt. exact Hi.
Qed.

(** One more decision on the way to the break: either the node breaks now, or
    it appends the wanted step and the question moves to the next decision. *)
Lemma next_decision (path : option (list string)) (n i : nat) :
  let p := match path with Some p => p | None => [] end in
  (S i < S n)%nat ->
  (nth i (fst (ask_repeatedly n
                 (mkTrackedState a attempts (Some (p ++ [wanted])%list)))) ""
   = "break_loop"
   /\ agent (snd (ask_repeatedly n
                    (mkTrackedState a attempts (Some (p ++ [wanted])%list)))) = a) ->
  nth (S i) (fst (ask_repeatedly (S n) (mkTrackedState a attempts path))) ""
  = "break_loop"
  /\ agent (snd (ask_repeatedly (S n) (mkTrackedState a attempts path))) = a.
Proof.
  intros p Hi Hnext.
  pose proof (loop_control_cases path) as H. cbv zeta in H. fold p in H.
  destruct ((3 <=? List.length p)%nat && (distinct_count (lastn 3 p) =? 1)%nat).
  - apply stays_broken; [rewrite H; reflexivity | exact Hi].
  - destruct (ask_repeatedly_S n i (mkTrackedState a attempts path)) as [Hn Hs].
    rewrite Hn, Hs, H. exact Hnext.
Qed.

Lemma fourth_decision_breaks (path : option (list string)) :
  nth 3 (fst (ask_repeatedly 4 (mkTrackedState a attempts path))) ""
  = "break_loop"
  /\ agent (snd (ask_repeatedly 4 (mkTrackedState a attempts path))) = a.
Proof.
  apply next_decision; [lia |].
  apply next_decision; [lia |].
  apply next_decision; [lia |].
  apply stays_broken; [| lia].
  rewrite loop_control_cases. cbv zeta.
  rewrite three_wanted_is_stuck. reflexivity.
Qed.

End LoopControlFacts.

(** X20.  The decide node with loop control stops a turn that makes no
    progress.  On a state with budget left whose documents or answer are
    still missing, and which nothing changes between the decisions, the
    fourth decision in a row is ["break_loop"] whatever the execution path
    was before, and the node has changed nothing but that path. *)
Theorem loop_control_breaks_by_fourth_decision (state : TrackedState)
    (Hbudget : (get_step_count (agent state) < get_max_steps_10 (agent state))%Z)
    (Hopen : docs_truthy (agent state) = false
             \/ PyStr.opt_truthy (answer (agent state)) = false) :
  nth 3 (fst (ask_repeatedly 4 state)) "" = "break_loop"
  /\ agent (snd (ask_repeatedly 4 state)) = agent state.
Proof.
  destruct state as [a attempts path]. simpl in Hbudget, Hopen.
  apply fourth_decision_breaks; assumption.
Qed.

Lemma loop_control_breaks_by_fourth_decision_example :
  let state := mkTrackedState (create_initial_state "q" 10) None None in
  (get_step_count (agent state) < get_max_steps_10 (agent state))%Z
  /\ fst (ask_repeatedly 4 state) = ["retrieve"; "retrieve"; "retrieve"; "break_loop"]
  /\ nth 3 (fst (ask_repeatedly 4 state)) "" = "break_loop".
Proof.
  assert (Hbudget : (0 < 10)%Z) by lia.
  split; [exact Hbudget |]. split; [reflexivity |].
  destruct (loop_control_breaks_by_fourth_decision
              (mkTrackedState (create_initial_state "q" 10) None None)
              Hbudget (or_introl eq_refl)) as [Hbreak _].
  exact Hbreak.
Defined.

(** * Clearing the history *)

(** X21.  Clearing the history forgets every earlier turn and keeps the
    capacity: whatever the history was, after [clear_history] and any
    sequence of completed turns the history holds the last [max_history] of
    those turns and nothing older. *)
Theorem clear_history_starts_over
    (self : ConversationalRAGChain) (turns : list (string * string))
    (Hcap : (0 < max_history self)%Z) :
  let memory := add_turns (clear_history self) turns in
  chat_history memory = lastn (Z.to_nat (max_history self)) turns
  /\ max_history memory = max_history self
  /\ _format_history (clear_history self) = first_round_placeholder.
Proof.
  pose proof (add_turns_window (max_history self) turns [] Hcap) as H.
  change (lastn (Z.to_nat (max_history self)) []) with (@nil (string * string)) in H.
  unfold clear_history. simpl in *. rewrite H. auto.
Qed.

Lemma clear_history_starts_over_example :
  let self := mkChain [("old", "turn"); ("older", "turn")] 2 in
  (0 < max_history self)%Z
  /\ chat_history (add_turns (clear_history self)
                     [("q1", "a1"); ("q2", "a2"); ("q3", "a3")])
     = [("q2", "a2"); ("q3", "a3")].
Proof.
  assert (Hcap : (0 < 2)%Z) by lia.
  split; [exact Hcap |].
  destruct (clear_history_starts_over
              (mkChain [("old", "turn"); ("older", "turn")] 2)
              [("q1", "a1"); ("q2", "a2"); ("q3", "a3")] Hcap) as [Hhistory _].
  exact Hhistory.
Defined.
